(** * fetch_iced_docs.py: the documentation pipeline, embedded in Rocq

    The script is a sequence of calls to the outside world (git, cargo,
    the docs2markdown converter, the local file system, the console)
    glued together by counters, branches and exception handlers.  The
    embedding keeps that shape: a state-and-exception monad over a world
    made of a file system and a trace of everything the script did, and an
    [environment] that answers every call the script makes to code that is
    not its own. *)

From Stdlib Require Import ZArith Ascii.
From stdpp Require Import base gmap strings list.

Local Open Scope Z_scope.

(** ** Paths and the file system *)

(** A [pathlib.Path] on a POSIX machine is kept as its [parts]: the
    components in order, with the root first when the path is absolute. *)
Abbreviation path := (list string).

Definition slash : ascii := ascii_of_nat 47.

(** [s.split(c)] *)
Fixpoint split_on (c : ascii) (s : string) : list string :=
  match s with
  | EmptyString => [EmptyString]
  | String a rest =>
      if Ascii.eqb a c then EmptyString :: split_on c rest
      else match split_on c rest with
           | part :: parts => String a part :: parts
           | [] => [String a EmptyString]
           end
  end.

(** The components of an operand of [/]: empty ones and [.] are dropped,
    [..] is kept. *)
Definition name_parts (name : string) : list string :=
  List.filter
    (λ part, negb (String.eqb part EmptyString) && negb (String.eqb part "."))
    (split_on slash name).

Fixpoint leading_slashes (name : string) : nat :=
  match name with
  | String a rest => if Ascii.eqb a slash then S (leading_slashes rest) else O
  | EmptyString => O
  end.

(** The root of an absolute operand: exactly two leading slashes are kept
    as they are, any other number is one. *)
Definition name_root (name : string) : option string :=
  match leading_slashes name with
  | O => None
  | S (S O) => Some "//"
  | _ => Some "/"
  end.

(** [p / name]: an absolute operand replaces [p], a relative one is
    appended component by component. *)
Definition path_join (p : path) (name : string) : path :=
  match name_root name with
  | Some root => root :: name_parts name
  | None => p ++ name_parts name
  end.
Declare Scope path_scope.
Delimit Scope path_scope with path.
Infix "/" := path_join : path_scope.

Definition is_root (part : string) : bool :=
  String.eqb part "/" || String.eqb part "//".

Definition str (p : path) : string :=
  match p with
  | [] => "."
  | first :: rest =>
      if is_root first then first +:+ String.concat "/" rest
      else String.concat "/" p
  end.

Inductive node :=
| Dir
| File (text : string).

(** Full paths to nodes.  A directory exists as soon as something lives at
    it or below it. *)
Abbreviation filesystem := (gmap (list string) node).

Definition exists_at (fs : filesystem) (p : path) : bool :=
  existsb (λ kv, bool_decide (p `prefix_of` kv.1)) (map_to_list fs).

Definition fs_mkdir (p : path) (fs : filesystem) : filesystem :=
  match fs !! p with
  | Some _ => fs
  | None => <[p := Dir]> fs
  end.

Definition fs_write_text (p : path) (s : string) (fs : filesystem) : filesystem :=
  <[p := File s]> fs.

Definition fs_rmtree (d : path) (fs : filesystem) : filesystem :=
  filter (λ kv, ¬ d `prefix_of` kv.1) fs.

(** [shutil.copytree(src, dst, dirs_exist_ok=True)]: everything at or below
    [src] re-rooted at [dst], over whatever [dst] held. *)
Definition fs_copytree (src dst : path) (fs : filesystem) : filesystem :=
  list_to_map
    (omap (λ kv, if bool_decide (src `prefix_of` kv.1)
                 then Some (dst ++ drop (length src) kv.1, kv.2)
                 else None)
          (map_to_list fs))
  ∪ fs.

(** ** Exceptions, console messages and events *)

Inductive exn :=
| CalledProcessError (returncode : Z)   (* subprocess.run(check=True), rc <> 0 *)
| OtherException (what : string)        (* any other subclass of Exception *)
| Exit (code : Z).                      (* typer.Exit *)

Inductive message :=
(* clone_iced_book *)
| MCloningBook
| MBookCopied (book_output : path)
| MBookSourceNotFound
| MFailedToCloneBook (e : exn)
| MErrorProcessingBook (e : exn)
(* build_cargo_docs *)
| MBuildingDocs (crates : list string)
| MRunningCargoDoc
| MCargoDocFailed (stderr : string)
| MDocDirNotFound
| MDocsBuilt (doc_dir : path)
| MFailedToBuild (e : exn)
(* convert_cargo_docs *)
| MNoDocsFound (crate : string)
| MConverting (crate : string)
| MFileFailed (name : string) (err : string)
| MNoFilesConverted (crate : string)
| MConverted (success_count : nat) (crate : string) (markdown_dir : path)
| MFilesFailed (error_count : nat)
| MFailedToConvert (crate : string) (e : exn)
(* fetch_examples *)
| MCloningExamples
| MTagNotFound (tag : string)
| MExamplesCopied (examples_dir : path)
| MNoExamplesFound
| MFailedToFetchExamples (e : exn)
(* create_index *)
| MIndexCreated (readme : path)
(* main *)
| MFetching (version : string)
| MOutputDirectory (output_dir : path)
| MWarnConvertFailed (crate : string)
| MCleaningUp
| MSummary
| MCompleted (success_count total_tasks : nat)
| MOutput (output_dir : path)
| MAllFetched
| MNowReference
| MSeeReadme (readme : path)
| MTasksFailed (n : nat).

(** The lines that interpolate a text (a path, a crate, a version, the
    stderr of cargo, an exception): rich reads the whole line as markup, and
    such a text can make it raise.  The other lines are constants of the
    script, or interpolate numbers only. *)
Definition interpolated (m : message) : bool :=
  match m with
  | MCloningBook | MBookSourceNotFound | MRunningCargoDoc | MDocDirNotFound
  | MFilesFailed _ | MCloningExamples | MNoExamplesFound | MCleaningUp
  | MSummary | MCompleted _ _ | MAllFetched | MNowReference
  | MTasksFailed _ => false
  | _ => true
  end.

(** What [subprocess.run] comes back with: a return code, or an exception
    of its own (the executable is missing, say). *)
Inductive spawned :=
| Returned (returncode : Z)
| SpawnError (what : string).

(** What the script reads of a finished process. *)
Record completed_process := CompletedProcess {
  process_returncode : Z;
  process_stderr : string
}.

Inductive fs_op :=
| Mkdir (p : path)
| WriteText (p : path) (s : string)
| Copytree (src dst : path)
| Rmtree (p : path).

(** The functions main calls and whose boolean it looks at. *)
Inductive stage :=
| CloneBook
| BuildDocs
| ConvertDocs (crate : string)
| FetchExamples.

Inductive event :=
| EvPrint (m : message)
| EvRun (argv : list string) (cwd : option path) (r : spawned)
| EvFs (op : fs_op) (fault : option string)
| EvConvertDirectory (src dst : path)
| EvReturned (s : stage) (b : bool).

Record world := World {
  fs : filesystem;
  trace : list event
}.

(** ** The environment *)

(** One item yielded by [docs2markdown.convert_directory]: the input file
    and either the written output or the exception for that file. *)
Inductive file_result :=
| Written (output : path)
| FileError (err : string).

Record conversion := Conversion {
  yielded : list (string * file_result);
  gen_fault : option string;      (* the generator itself raising, after its items *)
  conv_fs : filesystem
}.

Record environment := Environment {
  (* subprocess.run(argv, cwd=...): outcome and file system afterwards *)
  run_process : filesystem → list string → option path → spawned * filesystem;
  (* the stderr that subprocess.run(..., capture_output=True) captured *)
  captured_stderr : filesystem → list string → option path → string;
  (* whether a pathlib / shutil call that changes the file system raises *)
  fs_fault : filesystem → fs_op → option string;
  (* whether Path.exists() raises (an OSError other than the ignored ones) *)
  exists_fault : filesystem → path → option string;
  (* whether console.print raises on a line with interpolated text *)
  markup_fault : message → option string;
  (* docs2markdown.convert_directory(src, dst, ...) *)
  convert_dir : filesystem → path → path → conversion
}.

(** ** The monad *)

Inductive result (A : Type) :=
| Ret (a : A)
| Raise (e : exn).
Arguments Ret {A} a.
Arguments Raise {A} e.

Definition M (A : Type) : Type := world → result A * world.

Definition ret {A} (a : A) : M A := λ w, (Ret a, w).

Definition raise {A} (e : exn) : M A := λ w, (Raise e, w).

Definition bind {A B} (m : M A) (k : A → M B) : M B :=
  λ w, match m w with
       | (Ret a, w') => k a w'
       | (Raise e, w') => (Raise e, w')
       end.

(** [try: body / except ...: handler]; a handler answering [None] does not
    match the exception, which then goes on to the caller. *)
Definition try_except {A} (body : M A) (handler : exn → option (M A)) : M A :=
  λ w, match body w with
       | (Ret a, w') => (Ret a, w')
       | (Raise e, w') =>
           match handler e with
           | Some h => h w'
           | None => (Raise e, w')
           end
       end.

Declare Scope prog_scope.
Delimit Scope prog_scope with prog.
Notation "'let*' x ':=' m 'in' k" := (bind m (λ x, k))
  (at level 10, x binder, m at level 100, k at level 200) : prog_scope.
Notation "m ';;' k" := (bind m (λ _, k))
  (at level 100, k at level 200, right associativity) : prog_scope.
Local Open Scope prog_scope.

Fixpoint for_each {A} (l : list A) (body : A → M unit) : M unit :=
  match l with
  | [] => ret tt
  | x :: rest => body x ;; for_each rest body
  end.

Definition log (e : event) : M unit :=
  λ w, (Ret tt, World (fs w) (trace w ++ [e])).

(** Bookkeeping only: remembers the boolean a stage function handed to
    main.  The script has no such statement and nothing reads the entry. *)
Definition returning (s : stage) (m : M bool) : M bool :=
  let* b := m in log (EvReturned s b) ;; ret b.

(** ** The script *)

Section Program.

Variable env : environment.

(** *** Calls out of the script *)

(** [console.print]: a line that rich refuses raises and shows nothing. *)
Definition console_print (m : message) : M unit :=
  λ w, match (if interpolated m then markup_fault env m else None) with
       | Some e => (Raise (OtherException e), w)
       | None => (Ret tt, World (fs w) (trace w ++ [EvPrint m]))
       end.

(** [subprocess.run(argv, cwd=cwd, check=check, capture_output=True)],
    giving the return code and the captured stderr. *)
Definition subprocess_run_captured (argv : list string) (cwd : option path)
    (check : bool) : M completed_process :=
  λ w, let '(r, fs') := run_process env (fs w) argv cwd in
       let stderr := captured_stderr env (fs w) argv cwd in
       let w' := World fs' (trace w ++ [EvRun argv cwd r]) in
       match r with
       | SpawnError e => (Raise (OtherException e), w')
       | Returned rc =>
           if check && negb (rc =? 0)
           then (Raise (CalledProcessError rc), w')
           else (Ret (CompletedProcess rc stderr), w')
       end.

Definition subprocess_run (argv : list string) (cwd : option path)
    (check : bool) : M Z :=
  let* result := subprocess_run_captured argv cwd check in
  ret (process_returncode result).

(** A pathlib / shutil call.  When it raises it has changed nothing;
    [ignore_errors] is shutil.rmtree's flag. *)
Definition fs_call (op : fs_op) (effect : filesystem → filesystem)
    (ignore_errors : bool) : M unit :=
  λ w, match fs_fault env (fs w) op with
       | Some e =>
           let w' := World (fs w) (trace w ++ [EvFs op (Some e)]) in
           if ignore_errors then (Ret tt, w') else (Raise (OtherException e), w')
       | None => (Ret tt, World (effect (fs w)) (trace w ++ [EvFs op None]))
       end.

Definition mkdir (p : path) : M unit := fs_call (Mkdir p) (fs_mkdir p) false.

Definition write_text (p : path) (s : string) : M unit :=
  fs_call (WriteText p s) (fs_write_text p s) false.

Definition copytree (src dst : path) : M unit :=
  fs_call (Copytree src dst) (fs_copytree src dst) false.

Definition rmtree (p : path) (ignore_errors : bool) : M unit :=
  fs_call (Rmtree p) (fs_rmtree p) ignore_errors.

Definition path_exists (p : path) : M bool :=
  λ w, match exists_fault env (fs w) p with
       | Some e => (Raise (OtherException e), w)
       | None => (Ret (exists_at (fs w) p), w)
       end.

Definition convert_directory (src dst : path) : M conversion :=
  λ w, let c := convert_dir env (fs w) src dst in
       (Ret c, World (conv_fs c) (trace w ++ [EvConvertDirectory src dst])).

(** *** clone_iced_book *)

Definition clone_iced_book (output_dir : path) : M bool :=
  let book_dir := (output_dir / "book-src")%path in
  let book_output := (output_dir / "book")%path in
  console_print MCloningBook ;;
  try_except
    (subprocess_run
       ["git"; "clone"; "--depth=1"; "https://github.com/iced-rs/book.git";
        str book_dir] None true ;;
     let src_dir := (book_dir / "src")%path in
     let* found := path_exists src_dir in
     if found : bool then
       copytree src_dir book_output ;;
       console_print (MBookCopied book_output) ;;
       rmtree book_dir false ;;
       ret true
     else
       console_print MBookSourceNotFound ;;
       ret false)
    (λ e, match e with
          | CalledProcessError _ =>
              Some (console_print (MFailedToCloneBook e) ;; ret false)
          | _ => Some (console_print (MErrorProcessingBook e) ;; ret false)
          end).

(** *** build_cargo_docs *)

Definition dq : string := String (ascii_of_nat 34) EmptyString.
Definition nl : string := String (ascii_of_nat 10) EmptyString.
Definition quoted (s : string) : string := dq +:+ s +:+ dq.

(** One line of the [dependencies] table, as the f-strings write it. *)
Definition dep_line (name version : string) : string :=
  name +:+ " = " +:+ quoted version.

Definition dependencies (crates : list string)
    (version layershell_version : string) : list string :=
  let deps := [dep_line "iced" version] in
  if bool_decide ("iced_layershell" ∈ crates)
  then deps ++ [dep_line "iced_layershell" layershell_version]
  else deps.

Definition cargo_toml_text (deps : list string) : string :=
  "[package]" +:+ nl +:+
  "name = " +:+ quoted "iced-docs" +:+ nl +:+
  "version = " +:+ quoted "0.1.0" +:+ nl +:+
  "edition = " +:+ quoted "2021" +:+ nl +:+
  nl +:+
  "[dependencies]" +:+ nl +:+
  String.concat nl deps +:+ nl.

Definition build_cargo_docs (crates : list string)
    (version layershell_version : string) (output_dir : path) : M bool :=
  let temp_dir := (output_dir / "cargo-temp")%path in
  mkdir temp_dir ;;
  console_print (MBuildingDocs crates) ;;
  try_except
    (let cargo_toml := (temp_dir / "Cargo.toml")%path in
     let deps := dependencies crates version layershell_version in
     write_text cargo_toml (cargo_toml_text deps) ;;
     let src_dir := (temp_dir / "src")%path in
     mkdir src_dir ;;
     write_text (src_dir / "lib.rs")%path EmptyString ;;
     console_print MRunningCargoDoc ;;
     let* result :=
       subprocess_run_captured
         (["cargo"; "doc"; "--no-deps"] ++ map (λ crate, "--package=" +:+ crate) crates)
         (Some temp_dir) false in
     if negb (process_returncode result =? 0) then
       console_print (MCargoDocFailed (process_stderr result)) ;;
       ret false
     else
       let doc_dir := (temp_dir / "target" / "doc")%path in
       let* found := path_exists doc_dir in
       if negb found then
         console_print MDocDirNotFound ;;
         ret false
       else
         console_print (MDocsBuilt doc_dir) ;;
         ret true)
    (λ e, Some (console_print (MFailedToBuild e) ;; ret false)).

(** *** convert_cargo_docs *)

(** The body of the for loop over what convert_directory yields, with the
    two counters it updates. *)
Fixpoint classify (items : list (string * file_result))
    (success_count error_count : nat) : M (nat * nat) :=
  match items with
  | [] => ret (success_count, error_count)
  | (input_file, r) :: rest =>
      match r with
      | FileError err =>
          console_print (MFileFailed input_file err) ;;
          classify rest success_count (S error_count)
      | Written _ =>
          classify rest (S success_count) error_count
      end
  end.

Definition convert_loop (doc_dir markdown_dir : path) : M (nat * nat) :=
  let* c := convert_directory doc_dir markdown_dir in
  let* counts := classify (yielded c) 0%nat 0%nat in
  match gen_fault c with
  | Some e => raise (OtherException e)
  | None => ret counts
  end.

Definition convert_cargo_docs (crate : string) (output_dir : path) : M bool :=
  let temp_dir := (output_dir / "cargo-temp")%path in
  let doc_dir := (temp_dir / "target" / "doc" / crate)%path in
  let markdown_dir := (output_dir / (crate +:+ "-api"))%path in
  let* found := path_exists doc_dir in
  if negb found then
    console_print (MNoDocsFound crate) ;;
    ret false
  else
    console_print (MConverting crate) ;;
    try_except
      (let* '(success_count, error_count) := convert_loop doc_dir markdown_dir in
       if (success_count =? 0)%nat then
         console_print (MNoFilesConverted crate) ;;
         ret false
       else
         console_print (MConverted success_count crate markdown_dir) ;;
         (if (0 <? error_count)%nat
          then console_print (MFilesFailed error_count)
          else ret tt) ;;
         ret true)
      (λ e, Some (console_print (MFailedToConvert crate e) ;; ret false)).

(** *** fetch_examples *)

Definition iced_repo : string := "https://github.com/iced-rs/iced.git".

Definition version_tag (version : string) : string :=
  if negb (String.prefix "v" version) then "v" +:+ version else version.

Definition clone_tag_argv (tag : string) (repo_dir : path) : list string :=
  ["git"; "clone"; "--depth=1"; "--filter=blob:none"; "--sparse";
   "--branch=" +:+ tag; iced_repo; str repo_dir].

Definition clone_main_argv (repo_dir : path) : list string :=
  ["git"; "clone"; "--depth=1"; "--filter=blob:none"; "--sparse";
   iced_repo; str repo_dir].

Definition fetch_examples (version : string) (output_dir : path) : M bool :=
  let examples_dir := (output_dir / "examples")%path in
  let repo_dir := (output_dir / "iced-repo-temp")%path in
  console_print MCloningExamples ;;
  try_except
    (let tag := version_tag version in
     let* returncode := subprocess_run (clone_tag_argv tag repo_dir) None false in
     (if negb (returncode =? 0) then
        console_print (MTagNotFound tag) ;;
        subprocess_run (clone_main_argv repo_dir) None true ;;
        ret tt
      else ret tt) ;;
     subprocess_run
       ["git"; "-C"; str repo_dir; "sparse-checkout"; "set"; "examples"]
       None true ;;
     let src_examples := (repo_dir / "examples")%path in
     let* found := path_exists src_examples in
     if found : bool then
       copytree src_examples examples_dir ;;
       console_print (MExamplesCopied examples_dir) ;;
       rmtree repo_dir false ;;
       ret true
     else
       console_print MNoExamplesFound ;;
       rmtree repo_dir true ;;
       ret false)
    (λ e, match e with
          | CalledProcessError _ =>
              Some (console_print (MFailedToFetchExamples e) ;;
                    let* found := path_exists repo_dir in
                    (if found : bool then rmtree repo_dir true else ret tt) ;;
                    ret false)
          | _ => None
          end).

(** *** create_index *)

Definition index_header : string :=
  "# Iced Framework Documentation

This directory contains comprehensive documentation for the Iced GUI framework, converted to LLM-friendly markdown format.

## Contents

### ðŸ“š Book
- `book/` - The official Iced book with tutorials and guides
  - Start here for conceptual understanding and examples

### ðŸ“– API Documentation
".

Definition index_crate_line (crate : string) : string :=
  "- `" +:+ crate +:+ "-api/` - API reference for the `" +:+ crate +:+ "` crate" +:+ nl.

Definition index_examples : string :=
  "
### ðŸ’¡ Examples
- `examples/` - Real-world example code from the Iced repository
  - See practical implementations of Iced patterns
".

Definition index_footer : string :=
  "
## Using with LLMs

When prompting an LLM about Iced, you can:

1. Reference specific sections: "
  +:+ dq +:+
  "See book/overview.md for architecture"
  +:+ dq +:+
  "
2. Include API docs: "
  +:+ dq +:+
  "Check iced-api/widget/ for available widgets"
  +:+ dq +:+
  "
3. Point to examples: "
  +:+ dq +:+
  "Look at examples/counter.rs for a simple app"
  +:+ dq +:+
  "

The documentation is in `llmstxt` format, optimized for LLM comprehension.

## Tips for Conversion

- **Elm Architecture**: Iced follows The Elm Architecture (TEA)
- **State Management**: Application state in a single struct
- **Messages**: User interactions trigger messages
- **Update Function**: Messages update state
- **View Function**: State renders to widgets
- **Subscriptions**: Async events (timers, streams)

## Key Modules

- `iced::widget` - Built-in widgets (button, text, container, etc.)
- `iced::application` - Main application trait
- `iced::executor` - Async runtime
- `iced::Theme` - Styling system
".

Definition index_content (crates : list string) (has_examples : bool) : string :=
  let index_content := index_header in
  let index_content :=
    fold_left (λ acc crate, acc +:+ index_crate_line crate) crates index_content in
  let index_content :=
    if has_examples then index_content +:+ index_examples else index_content in
  index_content +:+ index_footer.

Definition create_index (output_dir : path) (crates : list string)
    (has_examples : bool) : M unit :=
  write_text (output_dir / "README.md")%path (index_content crates has_examples) ;;
  console_print (MIndexCreated (output_dir / "README.md")%path).

(** *** main *)

Record request := Request {
  version : string;
  layershell_version : string;
  output_dir : path;
  include_examples : bool;
  crates : list string
}.

(** The defaults of the command; [Path("./docs/iced")] has the parts
    docs and iced. *)
Definition default_request : request :=
  {| version := "0.13.1";
     layershell_version := "0.13.7";
     output_dir := ["docs"; "iced"];
     include_examples := false;
     crates := ["iced"; "iced_core"; "iced_widget"; "iced_runtime"; "iced_layershell"] |}.

(** Lines 389-393: the loop over the crates once the build has succeeded,
    and its body. *)
Definition convert_or_warn (output_dir : path) (crate : string) : M unit :=
  let* converted :=
    returning (ConvertDocs crate) (convert_cargo_docs crate output_dir) in
  if negb converted
  then console_print (MWarnConvertFailed crate)
  else ret tt.

Definition convert_each (crates : list string) (output_dir : path) : M unit :=
  for_each crates (convert_or_warn output_dir).

(** main always leaves by raising: typer.Exit with the exit code, or
    whatever exception a stage let through. *)
Definition main (req : request) : M unit :=
  let output_dir := output_dir req in
  mkdir output_dir ;;
  console_print (MFetching (version req)) ;;
  console_print (MOutputDirectory output_dir) ;;
  let success_count := 0%nat in
  let total_tasks := (2 + (if include_examples req then 1 else 0))%nat in
  (* 1. Fetch the Iced book *)
  let* book := returning CloneBook (clone_iced_book output_dir) in
  let success_count := if book : bool then S success_count else success_count in
  (* 2. Build API docs with cargo *)
  let* built :=
    returning BuildDocs
      (build_cargo_docs (crates req) (version req) (layershell_version req)
         output_dir) in
  let* success_count :=
    if built : bool then
      convert_each (crates req) output_dir ;;
      let success_count := S success_count in
      let temp_dir := (output_dir / "cargo-temp")%path in
      let* found := path_exists temp_dir in
      (if found : bool
       then console_print MCleaningUp ;; rmtree temp_dir false
       else ret tt) ;;
      ret success_count
    else ret success_count in
  (* 3. Optionally fetch examples *)
  let* success_count :=
    if include_examples req then
      let* fetched :=
        returning FetchExamples (fetch_examples (version req) output_dir) in
      ret (if fetched : bool then S success_count else success_count)
    else ret success_count in
  (* 4. Create index *)
  create_index output_dir (crates req) (include_examples req) ;;
  (* Summary *)
  console_print MSummary ;;
  console_print (MCompleted success_count total_tasks) ;;
  console_print (MOutput output_dir) ;;
  if (success_count =? total_tasks)%nat then
    console_print MAllFetched ;;
    console_print MNowReference ;;
    console_print (MSeeReadme (output_dir / "README.md")%path) ;;
    raise (Exit 0)
  else
    console_print (MTasksFailed (total_tasks - success_count)) ;;
    raise (Exit 1).

End Program.

(** ** Reading a trace *)

(** The outcomes main received from its stage functions, in order. *)
Definition stage_returns (t : list event) : list (stage * bool) :=
  omap (λ e, match e with EvReturned s b => Some (s, b) | _ => None end) t.

(** The stages that enter main's success count; conversions do not. *)
Definition counted (s : stage) : bool :=
  match s with
  | ConvertDocs _ => false
  | _ => true
  end.

Definition conversion_message (m : message) : bool :=
  match m with
  | MNoDocsFound _ | MConverting _ | MFileFailed _ _ | MNoFilesConverted _
  | MConverted _ _ _ | MFilesFailed _ | MFailedToConvert _ _
  | MWarnConvertFailed _ => true
  | _ => false
  end.

(** Console output that is not about a conversion, processes and file
    system calls: what every stage other than the conversion emits. *)
Definition io_event (e : event) : bool :=
  match e with
  | EvPrint m => negb (conversion_message m)
  | EvRun _ _ _ | EvFs _ _ => true
  | EvConvertDirectory _ _ | EvReturned _ _ => false
  end.

(** What the conversion of the crates may emit on top of that. *)
Definition conversion_event (e : event) : bool :=
  match e with
  | EvPrint _ | EvConvertDirectory _ _ | EvReturned (ConvertDocs _) _ => true
  | _ => false
  end.

(** What one call of convert_cargo_docs emits. *)
Definition converter_event (e : event) : bool :=
  match e with
  | EvPrint _ | EvConvertDirectory _ _ => true
  | _ => false
  end.

Definition is_print (e : event) : bool :=
  match e with
  | EvPrint _ => true
  | _ => false
  end.

(** Console output that is not about a conversion, and nothing else. *)
Definition summary_event (e : event) : bool :=
  match e with
  | EvPrint m => negb (conversion_message m)
  | _ => false
  end.

(** The convert_directory calls of a trace, by source directory. *)
Definition conversions_attempted (t : list event) : list path :=
  omap (λ e, match e with EvConvertDirectory src _ => Some src | _ => None end) t.

(** The argv of every git clone a trace holds. *)
Definition is_clone (argv : list string) : bool :=
  match argv with
  | a :: b :: _ => String.eqb a "git" && String.eqb b "clone"
  | _ => false
  end.

Definition clone_attempts (t : list event) : list (list string) :=
  omap (λ e, match e with
             | EvRun argv _ _ => if is_clone argv then Some argv else None
             | _ => None
             end) t.

Definition is_written (item : string * file_result) : bool :=
  match item.2 with
  | Written _ => true
  | FileError _ => false
  end.

Definition file_warning (item : string * file_result) : option event :=
  match item.2 with
  | Written _ => None
  | FileError err => Some (EvPrint (MFileFailed item.1 err))
  end.

Definition not_exit (e : exn) : Prop :=
  match e with
  | Exit _ => False
  | _ => True
  end.

Definition is_other (e : exn) : Prop :=
  match e with
  | OtherException _ => True
  | _ => False
  end.

(** [emits P Q m]: whatever the world, [m] only appends to the trace, every
    event it appends satisfies [P], and an exception it lets out satisfies
    [Q]. *)
Definition emits {A} (P : event → bool) (Q : exn → Prop) (m : M A) : Prop :=
  ∀ w, ∃ evs,
    trace (m w).2 = trace w ++ evs ∧
    forallb P evs = true ∧
    ∀ e, (m w).1 = Raise e → Q e.

(** The README as the blocks create_index strings together. *)
Definition index_blocks (crates : list string) (has_examples : bool) : list string :=
  [index_header] ++ map index_crate_line crates
  ++ (if has_examples then [index_examples] else []) ++ [index_footer].

(** The dependency table the manifest is claimed to declare: iced at the
    target version, and iced_layershell at its own version exactly when it
    is among the crates. *)
Definition claimed_dependencies (crates : list string)
    (version layershell_version : string) : list (string * string) :=
  ("iced", version)
  :: (if bool_decide ("iced_layershell" ∈ crates)
      then [("iced_layershell", layershell_version)]
      else []).

(** *** Reading a manifest back *)

Definition newline : ascii := ascii_of_nat 10.
Definition quote : ascii := ascii_of_nat 34.
Definition space : ascii := ascii_of_nat 32.

Fixpoint has_char (c : ascii) (s : string) : bool :=
  match s with
  | EmptyString => false
  | String a rest => Ascii.eqb a c || has_char c rest
  end.

(** The text before the first [c], and the text after it when there is
    one. *)
Fixpoint span_until (c : ascii) (s : string) : string * option string :=
  match s with
  | EmptyString => (EmptyString, None)
  | String a rest =>
      if Ascii.eqb a c then (EmptyString, Some rest)
      else let '(before, after) := span_until c rest in (String a before, after)
  end.

Fixpoint strip_prefix (p s : string) : option string :=
  match p, s with
  | EmptyString, _ => Some s
  | String a p', String b s' =>
      if Ascii.eqb a b then strip_prefix p' s' else None
  | String _ _, EmptyString => None
  end.

(** The characters a TOML basic string holds as they are: neither the
    quote, nor the backslash, nor a control character. *)
Definition plain_char (a : ascii) : bool :=
  let n := nat_of_ascii a in
  (32 <=? n)%nat && negb (n =? 34)%nat && negb (n =? 92)%nat
  && negb (n =? 127)%nat.

Fixpoint plain (s : string) : bool :=
  match s with
  | EmptyString => true
  | String a rest => plain_char a && plain rest
  end.

(** One entry [name = "version"] of a table, the version a basic string
    without escapes. *)
Definition parse_dependency (line : string) : option (string * string) :=
  match span_until space line with
  | (name, Some rest) =>
      match strip_prefix ("= " +:+ String quote EmptyString) rest with
      | Some opened =>
          match span_until quote opened with
          | (value, Some EmptyString) =>
              if plain value then Some (name, value) else None
          | _ => None
          end
      | None => None
      end
  | (_, None) => None
  end.

(** The lines of a table: those that follow its header, up to the next
    header. *)
Fixpoint table_body (lines : list string) : list string :=
  match lines with
  | [] => []
  | line :: rest =>
      if String.prefix "[" line then [] else line :: table_body rest
  end.

Fixpoint table (header : string) (lines : list string) : list string :=
  match lines with
  | [] => []
  | line :: rest =>
      if String.eqb line header then table_body rest else table header rest
  end.

(** What a reader of the manifest finds declared in [dependencies], entry
    by entry; nothing when a line of the table is not an entry. *)
Definition manifest_dependencies (text : string) : option (list (string * string)) :=
  mapM parse_dependency
    (List.filter (λ line, negb (String.eqb line EmptyString))
       (table "[dependencies]" (split_on newline text))).

(** The lines of the manifest above the entries. *)
Definition manifest_head : list string :=
  ["[package]"; "name = " +:+ quoted "iced-docs";
   "version = " +:+ quoted "0.1.0"; "edition = " +:+ quoted "2021";
   EmptyString; "[dependencies]"].

Definition unlines (lines : list string) : string :=
  foldr (λ line rest, line +:+ nl +:+ rest) EmptyString lines.

(** A version that closes its string and opens an entry of its own. *)
Definition crafted_version : string :=
  "0.13" +:+ dq +:+ nl +:+ "iced_core = " +:+ dq +:+ "0.13".

(** The outcomes that enter the exit code. *)
Definition counted_outcomes (t : list event) : list (stage * bool) :=
  List.filter (λ sb, counted sb.1) (stage_returns t).

(** The build outcomes and the units with a conversion outcome. *)
Definition build_outcomes (t : list event) : list bool :=
  omap (λ sb, match sb.1 with BuildDocs => Some sb.2 | _ => None end)
       (stage_returns t).

Definition converted_units (t : list event) : list string :=
  omap (λ sb, match sb.1 with ConvertDocs crate => Some crate | _ => None end)
       (stage_returns t).

(** Anything in a trace that tells of a conversion: a call of the
    converter, an outcome handed to main, a console line about one. *)
Definition mentions_conversion (e : event) : bool :=
  match e with
  | EvPrint m => conversion_message m
  | EvConvertDirectory _ _ | EvReturned (ConvertDocs _) _ => true
  | _ => false
  end.

Definition quiet_event (e : event) : bool := negb (mentions_conversion e).

(** Whatever the world, [m] only appends to the trace, and either what
    it appends is silent about conversions or the build had returned True
    on the way. *)
Definition silent_unless_built {A} (m : M A) : Prop :=
  ∀ w, ∃ evs,
    trace (m w).2 = trace w ++ evs ∧
    (forallb quiet_event evs = true ∨ EvReturned BuildDocs true ∈ evs).

(** Whether the console of [env] shows the line [m], rather than raise. *)
Definition renders (env : environment) (m : message) : bool :=
  match (if interpolated m then markup_fault env m else None) with
  | None => true
  | Some _ => false
  end.

Definition file_warning_line (item : string * file_result) : option message :=
  match item.2 with
  | Written _ => None
  | FileError err => Some (MFileFailed item.1 err)
  end.

(** The line that closes a conversion that nothing interrupts: the failure
    of the converter itself, or the report on the pages. *)
Definition closing_line (crate : string) (markdown_dir : path)
    (c : conversion) : message :=
  match gen_fault c with
  | Some e => MFailedToConvert crate (OtherException e)
  | None =>
      let successes := length (List.filter is_written (yielded c)) in
      if (successes =? 0)%nat then MNoFilesConverted crate
      else MConverted successes crate markdown_dir
  end.

(** The lines with interpolated text that convert_cargo_docs sends to the
    console for what the converter answered, when none of them is refused. *)
Definition conversion_lines (crate : string) (markdown_dir : path)
    (c : conversion) : list message :=
  MConverting crate :: omap file_warning_line (yielded c)
  ++ [closing_line crate markdown_dir c].

Definition no_clone (e : event) : bool :=
  match e with
  | EvRun argv _ _ => negb (is_clone argv)
  | _ => true
  end.

Definition join_blocks (blocks : list string) : string :=
  foldr String.append EmptyString blocks.

(** ** Sample runs *)

(** The script run without arguments, on a machine on which everything
    works and on machines where something goes wrong. *)
Definition demo_out : path := output_dir default_request.

Definition book_repo : string := "https://github.com/iced-rs/book.git".

Definition is_cargo_doc (argv : list string) : bool :=
  match argv with
  | a :: b :: _ => String.eqb a "cargo" && String.eqb b "doc"
  | _ => false
  end.

Definition uses_git (argv : list string) : bool :=
  match argv with
  | a :: _ => String.eqb a "git"
  | _ => false
  end.

(** The crates named by the --package= arguments of cargo doc. *)
Definition packages (argv : list string) : list string :=
  omap (λ arg, if String.prefix "--package=" arg
               then Some (String.substring 10 (String.length arg - 10) arg)
               else None) argv.

(** The texts a console line interpolates. *)
Definition exn_text (e : exn) : string :=
  match e with
  | CalledProcessError _ => "Command returned non-zero exit status"
  | OtherException what => what
  | Exit _ => EmptyString
  end.

Definition message_texts (m : message) : list string :=
  match m with
  | MBookCopied p | MDocsBuilt p | MExamplesCopied p | MIndexCreated p
  | MOutputDirectory p | MOutput p | MSeeReadme p => [str p]
  | MFailedToCloneBook e | MErrorProcessingBook e | MFailedToBuild e
  | MFailedToFetchExamples e => [exn_text e]
  | MBuildingDocs crates => crates
  | MCargoDocFailed stderr => [stderr]
  | MNoDocsFound crate | MConverting crate | MNoFilesConverted crate
  | MWarnConvertFailed crate => [crate]
  | MFileFailed name err => [name; err]
  | MConverted _ crate p => [crate; str p]
  | MFailedToConvert crate e => [crate; exn_text e]
  | MTagNotFound tag => [tag]
  | MFetching version => [version]
  | _ => []
  end.

(** A console that, like rich, raises MarkupError on a line whose
    interpolated text has a closing tag that closes nothing; the error
    quotes the text. *)
Definition has_closing_tag (text : string) : bool :=
  match String.index 0%nat "[/" text with
  | Some _ => true
  | None => false
  end.

Definition rich_console (m : message) : option string :=
  match List.find has_closing_tag (message_texts m) with
  | Some text => Some ("MarkupError: closing tag in " +:+ text)
  | None => None
  end.

Definition healthy_run (fs : filesystem) (argv : list string)
    (cwd : option path) : spawned * filesystem :=
  if is_clone argv then
    if bool_decide (book_repo ∈ argv)
    then (Returned 0, <[demo_out ++ ["book-src"; "src"; "SUMMARY.md"] := File "# Summary"]> fs)
    else (Returned 0, <[demo_out ++ ["iced-repo-temp"; "README.md"] := File "iced"]> fs)
  else if is_cargo_doc argv then
    (Returned 0,
     foldr (λ crate, <[demo_out ++ ["cargo-temp"; "target"; "doc"; crate; "index.html"]
                       := File "<html>"]>) fs (packages argv))
  else
    (Returned 0,
     <[demo_out ++ ["iced-repo-temp"; "examples"; "counter"; "main.rs"] := File "fn main"]> fs).

Definition healthy_convert (fs : filesystem) (src dst : path) : conversion :=
  {| yielded := [("index.html", Written (dst ++ ["index.md"]))];
     gen_fault := None;
     conv_fs := <[dst ++ ["index.md"] := File "# iced"]> fs |}.

Definition healthy : environment :=
  {| run_process := healthy_run;
     captured_stderr := λ _ _ _, EmptyString;
     fs_fault := λ _ _, None;
     exists_fault := λ _ _, None;
     markup_fault := rich_console;
     convert_dir := healthy_convert |}.

(** cargo doc exits with status 101. *)
Definition cargo_fails : environment :=
  {| run_process := λ fs argv cwd,
       if is_cargo_doc argv then (Returned 101, fs) else healthy_run fs argv cwd;
     captured_stderr := λ _ _ _, "error: failed to select a version for iced";
     fs_fault := λ _ _, None;
     exists_fault := λ _ _, None;
     markup_fault := rich_console;
     convert_dir := healthy_convert |}.

(** The converter fails on every page it is given. *)
Definition pages_fail : environment :=
  {| run_process := healthy_run;
     captured_stderr := λ _ _ _, EmptyString;
     fs_fault := λ _ _, None;
     exists_fault := λ _ _, None;
     markup_fault := rich_console;
     convert_dir := λ fs src dst,
       {| yielded := [("index.html", FileError "unsupported markup")];
          gen_fault := None;
          conv_fs := fs |} |}.

(** No git executable on the PATH: subprocess.run raises. *)
Definition git_missing : environment :=
  {| run_process := λ fs argv cwd,
       if uses_git argv then (SpawnError "FileNotFoundError", fs)
       else healthy_run fs argv cwd;
     captured_stderr := λ _ _ _, EmptyString;
     fs_fault := λ _ _, None;
     exists_fault := λ _ _, None;
     markup_fault := rich_console;
     convert_dir := healthy_convert |}.

(** The iced repository cannot be cloned, by tag or from main; cargo doc
    fails as well. *)
Definition iced_unreachable : environment :=
  {| run_process := λ fs argv cwd,
       if is_clone argv && negb (bool_decide (book_repo ∈ argv))
       then (Returned 128, fs)
       else if is_cargo_doc argv then (Returned 101, fs)
       else healthy_run fs argv cwd;
     captured_stderr := λ _ _ _, EmptyString;
     fs_fault := λ _ _, None;
     exists_fault := λ _ _, None;
     markup_fault := rich_console;
     convert_dir := healthy_convert |}.

(** The tag is unknown to the remote, main can be cloned. *)
Definition tag_missing : environment :=
  {| run_process := λ fs argv cwd,
       if is_clone argv && bool_decide ("--branch=v0.13.1" ∈ argv)
       then (Returned 128, fs)
       else healthy_run fs argv cwd;
     captured_stderr := λ _ _ _, EmptyString;
     fs_fault := λ _ _, None;
     exists_fault := λ _ _, None;
     markup_fault := rich_console;
     convert_dir := healthy_convert |}.

(** The converter succeeds on one page and fails on two. *)
Definition mixed_pages : environment :=
  {| run_process := healthy_run;
     captured_stderr := λ _ _ _, EmptyString;
     fs_fault := λ _ _, None;
     exists_fault := λ _ _, None;
     markup_fault := rich_console;
     convert_dir := λ fs src dst,
       {| yielded := [("index.html", Written (dst ++ ["index.md"]));
                      ("all.html", FileError "unsupported markup");
                      ("widget.html", FileError "unsupported markup")];
          gen_fault := None;
          conv_fs := <[dst ++ ["index.md"] := File "# iced"]> fs |} |}.

(** A world in which cargo doc has left the documentation of iced. *)
Definition built_world : world :=
  World {[ demo_out ++ ["cargo-temp"; "target"; "doc"; "iced"; "index.html"]
           := File "<html>" ]} [].

(** The converter fails on one page with an error that quotes a closing
    tag, between two pages it converts. *)
Definition markup_in_error : environment :=
  {| run_process := healthy_run;
     captured_stderr := λ _ _ _, EmptyString;
     fs_fault := λ _ _, None;
     exists_fault := λ _ _, None;
     markup_fault := rich_console;
     convert_dir := λ fs src dst,
       {| yielded := [("index.html", Written (dst ++ ["index.md"]));
                      ("all.html", FileError "unexpected closing tag [/div]");
                      ("widget.html", Written (dst ++ ["widget.md"]))];
          gen_fault := None;
          conv_fs := <[dst ++ ["index.md"] := File "# iced"]> fs |} |}.

(** The converter converts one page and then raises itself. *)
Definition converter_breaks : environment :=
  {| run_process := healthy_run;
     captured_stderr := λ _ _ _, EmptyString;
     fs_fault := λ _ _, None;
     exists_fault := λ _ _, None;
     markup_fault := rich_console;
     convert_dir := λ fs src dst,
       {| yielded := [("index.html", Written (dst ++ ["index.md"]))];
          gen_fault := Some "UnicodeDecodeError";
          conv_fs := <[dst ++ ["index.md"] := File "# iced"]> fs |} |}.


(** The clone works and the sparse checkout fails. *)
Definition checkout_fails : environment :=
  {| run_process := λ fs argv cwd,
       if uses_git argv && negb (is_clone argv) then (Returned 1, fs)
       else healthy_run fs argv cwd;
     captured_stderr := λ _ _ _, EmptyString;
     fs_fault := λ _ _, None;
     exists_fault := λ _ _, None;
     markup_fault := rich_console;
     convert_dir := healthy_convert |}.

Definition demo_request : request := default_request.

(** The same with --include-examples. *)
Definition demo_request_with_examples : request :=
  {| version := version default_request;
     layershell_version := layershell_version default_request;
     output_dir := output_dir default_request;
     include_examples := true;
     crates := crates default_request |}.

Definition empty_world : world := World ∅ [].

(** ** The script's footprint *)

(** Everything the script can ask of the machine for one request: the
    commands it can run, the directories it can create, the files it can
    write with their text, the trees it can copy, the directories it can
    remove and the conversions it can start. *)
Definition book_clone_argv (book_dir : path) : list string :=
  ["git"; "clone"; "--depth=1"; "https://github.com/iced-rs/book.git";
   str book_dir].

Definition sparse_checkout_argv (repo_dir : path) : list string :=
  ["git"; "-C"; str repo_dir; "sparse-checkout"; "set"; "examples"].

Definition cargo_doc_argv (crates : list string) : list string :=
  ["cargo"; "doc"; "--no-deps"] ++ map (λ crate, "--package=" +:+ crate) crates.

Definition commands (req : request) : list (list string * option path) :=
  let out := output_dir req in
  [(book_clone_argv (out / "book-src")%path, None);
   (cargo_doc_argv (crates req), Some (out / "cargo-temp")%path);
   (clone_tag_argv (version_tag (version req)) (out / "iced-repo-temp")%path, None);
   (clone_main_argv (out / "iced-repo-temp")%path, None);
   (sparse_checkout_argv (out / "iced-repo-temp")%path, None)].

Definition made_dirs (out : path) : list path :=
  [out; (out / "cargo-temp")%path; (out / "cargo-temp" / "src")%path].

Definition written_files (req : request) : list (path * string) :=
  let out := output_dir req in
  [((out / "cargo-temp" / "Cargo.toml")%path,
    cargo_toml_text
      (dependencies (crates req) (version req) (layershell_version req)));
   ((out / "cargo-temp" / "src" / "lib.rs")%path, EmptyString);
   ((out / "README.md")%path,
    index_content (crates req) (include_examples req))].

Definition copied_trees (out : path) : list (path * path) :=
  [((out / "book-src" / "src")%path, (out / "book")%path);
   ((out / "iced-repo-temp" / "examples")%path, (out / "examples")%path)].

Definition scratch_dirs (out : path) : list path :=
  [(out / "book-src")%path; (out / "cargo-temp")%path;
   (out / "iced-repo-temp")%path].

Definition crate_conversion (out : path) (crate : string) : path * path :=
  ((out / "cargo-temp" / "target" / "doc" / crate)%path,
   (out / (crate +:+ "-api"))%path).

Definition footprint (req : request) (e : event) : bool :=
  let out := output_dir req in
  match e with
  | EvPrint _ | EvReturned _ _ => true
  | EvRun argv cwd _ => bool_decide ((argv, cwd) ∈ commands req)
  | EvFs (Mkdir p) _ => bool_decide (p ∈ made_dirs out)
  | EvFs (WriteText p text) _ => bool_decide ((p, text) ∈ written_files req)
  | EvFs (Copytree src dst) _ => bool_decide ((src, dst) ∈ copied_trees out)
  | EvFs (Rmtree p) _ => bool_decide (p ∈ scratch_dirs out)
  | EvConvertDirectory src dst =>
      bool_decide ((src, dst) ∈ map (crate_conversion out) (crates req))
  end.

(** The exceptions main can end with. *)
Definition main_exit (e : exn) : Prop :=
  match e with
  | Exit code => code = 0 ∨ code = 1
  | OtherException _ => True
  | CalledProcessError _ => False
  end.

(** The console lines that close a run: the summary for [succeeded] tasks
    out of [total], then the success banner or the number of failed
    tasks. *)
Definition summary_lines (req : request) (succeeded total : nat) : list event :=
  [EvPrint MSummary; EvPrint (MCompleted succeeded total);
   EvPrint (MOutput (output_dir req))]
  ++ (if (succeeded =? total)%nat
      then [EvPrint MAllFetched; EvPrint MNowReference;
            EvPrint (MSeeReadme (output_dir req / "README.md")%path)]
      else [EvPrint (MTasksFailed (total - succeeded))]).

(** ** Joining a path with one plain component *)

Lemma path_join_part (p : path) (name : string) :
  name_root name = None → name_parts name = [name] →
  (p / name)%path = p ++ [name].
Proof. unfold path_join. by intros -> ->. Qed.

(** ** The monad's rules for [emits] *)

Section Emits.

Context {A B : Type}.
Variable P : event → bool.
Variable Q : exn → Prop.

Lemma emits_ret (a : A) : emits P Q (ret a).
Proof. intros w. exists []. simpl. rewrite app_nil_r. by repeat split. Qed.

Lemma emits_raise (e : exn) : Q e → emits P Q (raise (A := A) e).
Proof.
  intros He w. exists []. simpl. rewrite app_nil_r.
  repeat split; [by intros ? [= <-]].
Qed.

Lemma emits_bind (m : M A) (k : A → M B) :
  emits P Q m → (∀ a, emits P Q (k a)) → emits P Q (bind m k).
Proof.
  intros Hm Hk w. unfold bind.
  destruct (Hm w) as (evs & Ht & HP & HQ).
  destruct (m w) as [[a|e] w1]; simpl in *.
  - destruct (Hk a w1) as (evs' & Ht' & HP' & HQ').
    exists (evs ++ evs'). rewrite Ht', Ht, forallb_app, HP, HP'.
    by rewrite (assoc_L (++)).
  - exists evs. repeat split; [done..|]. intros e' [= <-]. by apply HQ.
Qed.

Lemma emits_try (Q1 : exn → Prop) (body : M A) (handler : exn → option (M A)) :
  emits P Q1 body →
  (∀ e, Q1 e → match handler e with
               | Some h => emits P Q h
               | None => Q e
               end) →
  emits P Q (try_except body handler).
Proof.
  intros Hb Hh w. unfold try_except.
  destruct (Hb w) as (evs & Ht & HP & HQ).
  destruct (body w) as [[a|e] w1]; simpl in *.
  - exists evs. by repeat split.
  - specialize (Hh e (HQ e eq_refl)). destruct (handler e) as [h|].
    + destruct (Hh w1) as (evs' & Ht' & HP' & HQ').
      exists (evs ++ evs'). rewrite Ht', Ht, forallb_app, HP, HP'.
      by rewrite (assoc_L (++)).
    + exists evs. repeat split; [done..|]. by intros e' [= <-].
Qed.

Lemma emits_mono (P1 : event → bool) (m : M A) :
  emits P1 Q m → (∀ e, P1 e = true → P e = true) → emits P Q m.
Proof.
  intros Hm HP w. destruct (Hm w) as (evs & ? & H1 & ?).
  exists evs. repeat split; [done| |done].
  apply forallb_forall. intros e He.
  apply HP. by eapply forallb_forall in H1.
Qed.

Lemma emits_weaken_exn (Q1 : exn → Prop) (m : M A) :
  emits P Q1 m → (∀ e, Q1 e → Q e) → emits P Q m.
Proof.
  intros Hm HQ w. destruct (Hm w) as (evs & ? & ? & ?).
  exists evs. repeat split; [done..|]. eauto.
Qed.

End Emits.

Lemma emits_returning P Q (s : stage) (m : M bool) :
  emits P Q m → (∀ b, P (EvReturned s b) = true) →
  emits P Q (returning s m).
Proof.
  intros Hm HP. unfold returning. apply emits_bind; [done|]. intros b.
  apply emits_bind; [|intros _; apply emits_ret].
  intros w. exists [EvReturned s b]. simpl. by rewrite HP.
Qed.

Section EmitsCalls.

Variable env : environment.
Variable P : event → bool.
Variable Q : exn → Prop.

Lemma emits_log (e : event) : P e = true → emits P Q (log e).
Proof. intros He w. exists [e]. simpl. by rewrite He. Qed.

Lemma emits_print (m : message) :
  P (EvPrint m) = true → (∀ s, Q (OtherException s)) →
  emits P Q (console_print env m).
Proof.
  intros HP Ho w. unfold console_print.
  destruct (if interpolated m then markup_fault env m else None) as [s|].
  - exists []. simpl. rewrite app_nil_r. repeat split. by intros ? [= <-].
  - exists [EvPrint m]. simpl. by rewrite HP.
Qed.

Lemma emits_path_exists (p : path) :
  (∀ s, Q (OtherException s)) → emits P Q (path_exists env p).
Proof.
  intros Ho w. unfold path_exists. exists []. rewrite app_nil_r.
  destruct (exists_fault env (fs w) p) as [s|]; simpl;
    repeat split; by intros ? [= <-].
Qed.

Lemma emits_subprocess_run_captured argv cwd check :
  (∀ r, P (EvRun argv cwd r) = true) →
  (∀ rc, Q (CalledProcessError rc)) → (∀ s, Q (OtherException s)) →
  emits P Q (subprocess_run_captured env argv cwd check).
Proof.
  intros HP Hc Ho w. unfold subprocess_run_captured.
  destruct (run_process env (fs w) argv cwd) as [r fs'].
  exists [EvRun argv cwd r].
  destruct r as [rc|s]; [destruct (check && negb (rc =? 0))|];
    simpl; rewrite HP; repeat split; by intros ? [= <-].
Qed.

Lemma emits_subprocess_run argv cwd check :
  (∀ r, P (EvRun argv cwd r) = true) →
  (∀ rc, Q (CalledProcessError rc)) → (∀ s, Q (OtherException s)) →
  emits P Q (subprocess_run env argv cwd check).
Proof.
  intros HP Hc Ho. unfold subprocess_run.
  apply emits_bind; [by apply emits_subprocess_run_captured|].
  intros result. apply emits_ret.
Qed.

Lemma emits_fs_call op effect ignore_errors :
  (∀ f, P (EvFs op f) = true) → (∀ s, Q (OtherException s)) →
  emits P Q (fs_call env op effect ignore_errors).
Proof.
  intros HP Ho w. unfold fs_call.
  destruct (fs_fault env (fs w) op) as [s|]; [destruct ignore_errors|];
    eexists [_]; simpl; rewrite HP; repeat split; by intros ? [= <-].
Qed.

Lemma emits_fs_call_ignoring op effect (Q' : exn → Prop) :
  (∀ f, P (EvFs op f) = true) → emits P Q' (fs_call env op effect true).
Proof.
  intros HP w. unfold fs_call.
  destruct (fs_fault env (fs w) op) as [s|];
    eexists [_]; simpl; rewrite HP; by repeat split.
Qed.

Lemma emits_convert_directory src dst :
  P (EvConvertDirectory src dst) = true →
  emits P Q (convert_directory env src dst).
Proof. intros HP w. eexists [_]. simpl. rewrite HP. by repeat split. Qed.

Lemma emits_for_each {X} (l : list X) (body : X → M unit) :
  (∀ x, emits P Q (body x)) → emits P Q (for_each l body).
Proof.
  intros Hb. induction l as [|x l IH]; simpl.
  - apply emits_ret.
  - apply emits_bind; [apply Hb | intros _; apply IH].
Qed.

Lemma emits_classify items s e :
  (∀ m, P (EvPrint m) = true) → (∀ s, Q (OtherException s)) →
  emits P Q (classify env items s e).
Proof.
  intros HP Ho. revert s e.
  induction items as [|[f [out|err]] items IH]; intros s e; simpl.
  - apply emits_ret.
  - apply IH.
  - apply emits_bind; [by apply emits_print | intros _; apply IH].
Qed.

End EmitsCalls.

(** ** What each stage emits and lets out *)

Ltac emits_step :=
  lazymatch goal with
  | |- emits _ _ (bind _ _) => apply emits_bind
  | |- emits _ _ (ret _) => apply emits_ret
  | |- emits _ _ (raise _) => apply emits_raise
  | |- emits _ _ (console_print _ _) => apply emits_print
  | |- emits _ _ (log _) => apply emits_log
  | |- emits _ _ (path_exists _ _) => apply emits_path_exists
  | |- emits _ _ (subprocess_run _ _ _ _) => apply emits_subprocess_run
  | |- emits _ _ (subprocess_run_captured _ _ _ _) =>
      apply emits_subprocess_run_captured
  | |- emits _ _ (mkdir _ _) => apply emits_fs_call
  | |- emits _ _ (write_text _ _ _) => apply emits_fs_call
  | |- emits _ _ (copytree _ _ _) => apply emits_fs_call
  | |- emits _ _ (rmtree _ _ true) => apply emits_fs_call_ignoring
  | |- emits _ _ (rmtree _ _ false) => apply emits_fs_call
  | |- emits _ _ (convert_directory _ _ _) => apply emits_convert_directory
  | |- emits _ _ (classify _ _ _ _) => apply emits_classify
  | |- emits _ _ (if ?b then _ else _) => destruct b
  | |- emits _ _ (match ?o with Some _ => _ | None => _ end) => destruct o
  | |- emits _ _ (let (_, _) := ?p in _) => destruct p
  | |- ∀ _, _ => intro
  | |- _ = true => reflexivity
  | |- not_exit _ => exact I
  | |- is_other _ => exact I
  | |- True => exact I
  end.

Ltac emits_auto := repeat emits_step.

Section Stages.

Variable env : environment.

Lemma clone_iced_book_emits output_dir :
  emits io_event is_other (clone_iced_book env output_dir).
Proof.
  unfold clone_iced_book. apply emits_bind; [emits_auto|intros _].
  apply emits_try with (Q1 := λ _, True); [emits_auto|].
  intros [rc|s|c] _; emits_auto.
Qed.

Lemma build_cargo_docs_emits crates version layershell_version output_dir :
  emits io_event is_other
    (build_cargo_docs env crates version layershell_version output_dir).
Proof.
  unfold build_cargo_docs. do 2 (apply emits_bind; [emits_auto|intros _]).
  apply emits_try with (Q1 := λ _, True); [emits_auto|].
  intros e _; emits_auto.
Qed.

Lemma convert_loop_emits doc_dir markdown_dir :
  emits converter_event (λ _, True) (convert_loop env doc_dir markdown_dir).
Proof. unfold convert_loop. emits_auto. Qed.

Lemma convert_cargo_docs_emits crate output_dir :
  emits converter_event is_other (convert_cargo_docs env crate output_dir).
Proof.
  unfold convert_cargo_docs. apply emits_bind; [emits_auto|intros found].
  destruct found; simpl; [|emits_auto].
  apply emits_bind; [emits_auto|intros _].
  apply emits_try with (Q1 := λ _, True).
  - apply emits_bind; [apply convert_loop_emits|]. emits_auto.
  - intros e _; emits_auto.
Qed.

Lemma convert_or_warn_emits output_dir crate :
  emits conversion_event is_other (convert_or_warn env output_dir crate).
Proof.
  unfold convert_or_warn, returning.
  apply emits_bind; [|emits_auto].
  apply emits_bind; [|emits_auto].
  eapply emits_mono; [apply convert_cargo_docs_emits|].
  by intros [].
Qed.

Lemma fetch_examples_emits version output_dir :
  emits io_event is_other (fetch_examples env version output_dir).
Proof.
  unfold fetch_examples. apply emits_bind; [emits_auto|intros _].
  apply emits_try with (Q1 := not_exit); [emits_auto|].
  intros [rc|s|c] He; [emits_auto|exact I|destruct He].
Qed.

Lemma create_index_emits output_dir crates has_examples :
  emits io_event is_other (create_index env output_dir crates has_examples).
Proof. unfold create_index. emits_auto. Qed.

End Stages.

(** ** Running main to its exit *)

Lemma io_event_quiet (t : list event) :
  forallb io_event t = true →
  stage_returns t = [] ∧ conversions_attempted t = [] ∧
  ∀ m, EvPrint m ∈ t → conversion_message m = false.
Proof.
  induction t as [|e t IH]; simpl.
  - intros _. repeat split. by intros m ?%elem_of_nil.
  - intros [He Ht]%andb_true_iff. destruct (IH Ht) as (IH1 & IH2 & IH3).
    unfold stage_returns, conversions_attempted in *.
    destruct e as [m| | | |]; simpl in *; try done;
      (repeat split; [done..|]);
      intros m' [[= <-]|?]%elem_of_cons;
      first [by apply negb_true_iff | by apply IH3].
Qed.

Lemma io_event_no_return (t : list event) :
  forallb io_event t = true → stage_returns t = [].
Proof. intros H. by apply io_event_quiet. Qed.

Lemma summary_event_io (t : list event) :
  forallb summary_event t = true →
  forallb io_event t = true ∧ forallb is_print t = true.
Proof.
  induction t as [|[] t IH]; simpl; try done.
  intros [-> Ht]%andb_true_iff. by apply IH.
Qed.

Lemma stage_returns_app (t1 t2 : list event) :
  stage_returns (t1 ++ t2) = stage_returns t1 ++ stage_returns t2.
Proof. apply omap_app. Qed.

Lemma conversions_attempted_app (t1 t2 : list event) :
  conversions_attempted (t1 ++ t2) =
  conversions_attempted t1 ++ conversions_attempted t2.
Proof. apply omap_app. Qed.

Section Runs.

Variable env : environment.

(** A step of main that is followed by the exit: the step returned. *)
Lemma bind_exit {A B} P Q (m : M A) (k : A → M B) w c w' :
  emits P Q m → (∀ c, ¬ Q (Exit c)) →
  bind m k w = (Raise (Exit c), w') →
  ∃ a w1 evs,
    m w = (Ret a, w1) ∧ trace w1 = trace w ++ evs ∧
    forallb P evs = true ∧ k a w1 = (Raise (Exit c), w').
Proof.
  intros Hm HQ. unfold bind.
  destruct (Hm w) as (evs & Ht & HP & He).
  destruct (m w) as [[a|e] w1]; simpl in *.
  - intros Hk. by exists a, w1, evs.
  - intros [= -> ->]. by destruct (HQ c (He _ eq_refl)).
Qed.

Lemma returning_exit {B} P Q s (m : M bool) (k : bool → M B) w c w' :
  emits P Q m → (∀ c, ¬ Q (Exit c)) →
  bind (returning s m) k w = (Raise (Exit c), w') →
  ∃ b w1 evs,
    m w = (Ret b, w1) ∧ trace w1 = trace w ++ evs ∧
    forallb P evs = true ∧
    k b (World (fs w1) (trace w1 ++ [EvReturned s b])) = (Raise (Exit c), w').
Proof.
  intros Hm HQ. unfold returning, bind at 1 2.
  destruct (Hm w) as (evs & Ht & HP & He).
  destruct (m w) as [[b|e] w1]; simpl in *.
  - intros Hk. by exists b, w1, evs.
  - intros [= -> ->]. by destruct (HQ c (He _ eq_refl)).
Qed.

Lemma is_other_not_exit c : ¬ is_other (Exit c).
Proof. by intros []. Qed.

(** A step that returned, inside a sequence that returned. *)
Lemma bind_ret {A B} (m : M A) (k : A → M B) w b w' :
  bind m k w = (Ret b, w') →
  ∃ a w1, m w = (Ret a, w1) ∧ k a w1 = (Ret b, w').
Proof.
  unfold bind. destruct (m w) as [[a|e] w1]; [|done].
  intros H. by exists a, w1.
Qed.

Lemma console_print_ret m w u w' :
  console_print env m w = (Ret u, w') →
  w' = World (fs w) (trace w ++ [EvPrint m]).
Proof.
  unfold console_print.
  destruct (if interpolated m then markup_fault env m else None); [done|].
  by intros [= _ <-].
Qed.

(** A line followed by the exit was shown. *)
Lemma print_exit {B} m (k : unit → M B) w c w' :
  bind (console_print env m) k w = (Raise (Exit c), w') →
  k tt (World (fs w) (trace w ++ [EvPrint m])) = (Raise (Exit c), w').
Proof.
  unfold bind, console_print.
  by destruct (if interpolated m then markup_fault env m else None).
Qed.

(** When the body of the loop returns, it has handed main one outcome. *)
Lemma convert_or_warn_inv output_dir crate w w' :
  convert_or_warn env output_dir crate w = (Ret tt, w') →
  ∃ ok evs,
    trace w' = trace w ++ evs ∧
    forallb conversion_event evs = true ∧
    stage_returns evs = [(ConvertDocs crate, ok)].
Proof.
  unfold convert_or_warn, returning, bind.
  destruct (convert_cargo_docs_emits env crate output_dir w)
    as (evs & Ht & HP & He).
  destruct (convert_cargo_docs env crate output_dir w) as [[ok|e] w1];
    simpl in *; [|done].
  assert (forallb conversion_event evs = true ∧ stage_returns evs = [])
    as [HP' Hr].
  { clear -HP. induction evs as [|[] evs IH]; simpl in *; by auto. }
  intros H. exists ok. destruct ok; simpl in H.
  - injection H as <-.
    exists (evs ++ [EvReturned (ConvertDocs crate) true]). simpl.
    rewrite Ht, forallb_app, stage_returns_app, HP', Hr.
    by rewrite <-(assoc_L (++)).
  - apply console_print_ret in H as ->.
    exists (evs ++ [EvReturned (ConvertDocs crate) false;
                    EvPrint (MWarnConvertFailed crate)]). simpl.
    rewrite Ht, forallb_app, stage_returns_app, HP', Hr.
    by rewrite <-!(assoc_L (++)).
Qed.

(** When the loop over the crates returns, it has handed main one outcome
    per entry of the list, in the list's order. *)
Lemma convert_each_inv crates output_dir w w' :
  convert_each env crates output_dir w = (Ret tt, w') →
  ∃ evs,
    trace w' = trace w ++ evs ∧
    forallb conversion_event evs = true ∧
    map fst (stage_returns evs) = map ConvertDocs crates.
Proof.
  unfold convert_each. revert w.
  induction crates as [|crate crates IH]; intros w; simpl.
  - intros [= <-]. exists []. by rewrite app_nil_r.
  - intros ([] & w1 & H1 & H2)%bind_ret.
    apply convert_or_warn_inv in H1 as (ok & evs & Ht & HP & Hr).
    apply IH in H2 as (evs' & Ht' & HP' & Hr').
    exists (evs ++ evs').
    rewrite Ht', Ht, forallb_app, stage_returns_app, map_app, HP, HP', Hr, Hr'.
    by rewrite (assoc_L (++)).
Qed.

Lemma convert_each_emits crates output_dir :
  emits conversion_event is_other (convert_each env crates output_dir).
Proof. apply emits_for_each. intros crate. apply convert_or_warn_emits. Qed.

Lemma create_index_inv output_dir crates has_examples w w1 :
  create_index env output_dir crates has_examples w = (Ret tt, w1) →
  let readme := (output_dir / "README.md")%path in
  let text := index_content crates has_examples in
  fs w1 = <[readme := File text]> (fs w) ∧
  trace w1 = trace w ++ [EvFs (WriteText readme text) None;
                         EvPrint (MIndexCreated readme)].
Proof.
  unfold create_index, bind, write_text, fs_call.
  destruct (fs_fault env (fs w) _); simpl; [done|].
  intros ->%console_print_ret. simpl. by rewrite <-(assoc_L (++)).
Qed.

End Runs.

Lemma bind_assoc_at {A B C} (m : M A) (k1 : A → M B) (k2 : B → M C) w :
  bind (bind m k1) k2 w = bind m (λ a, bind (k1 a) k2) w.
Proof. unfold bind. by destruct (m w) as [[a|e] w1]. Qed.

Lemma main_exit_inv env req w c w' :
  main env req w = (Raise (Exit c), w') →
  let readme := (output_dir req / "README.md")%path in
  let text := index_content (crates req) (include_examples req) in
  ∃ book built fetched t_pre t_book t_build t_conv t_clean t_ex t_post,
    trace w' =
      trace w ++ t_pre ++ t_book ++ [EvReturned CloneBook book]
      ++ t_build ++ [EvReturned BuildDocs built] ++ t_conv ++ t_clean ++ t_ex
      ++ [EvFs (WriteText readme text) None] ++ t_post ∧
    forallb io_event t_pre = true ∧
    forallb io_event t_book = true ∧
    forallb io_event t_build = true ∧
    (if built
     then forallb conversion_event t_conv = true ∧
          map fst (stage_returns t_conv) = map ConvertDocs (crates req) ∧
          forallb io_event t_clean = true
     else t_conv = [] ∧ t_clean = []) ∧
    (if include_examples req
     then ∃ t, forallb io_event t = true ∧
               t_ex = t ++ [EvReturned FetchExamples fetched]
     else t_ex = [] ∧ fetched = true) ∧
    forallb summary_event t_post = true ∧
    fs w' !! readme = Some (File text) ∧
    c = (if book && built && fetched then 0 else 1).
Proof.
  intros H readme text. unfold main in H.
  apply (bind_exit io_event is_other) in H
    as (_ & w1 & t1 & _ & Ht1 & HP1 & H);
    [|emits_auto|apply is_other_not_exit].
  apply (bind_exit io_event is_other) in H
    as (_ & w2 & t2 & _ & Ht2 & HP2 & H);
    [|emits_auto|apply is_other_not_exit].
  apply (bind_exit io_event is_other) in H
    as (_ & w3 & t3 & _ & Ht3 & HP3 & H);
    [|emits_auto|apply is_other_not_exit].
  eapply returning_exit in H as (book & w4 & t_book & _ & Ht4 & HP4 & H);
    [|apply clone_iced_book_emits|apply is_other_not_exit].
  eapply returning_exit in H as (built & w5 & t_build & _ & Ht5 & HP5 & H);
    [|apply build_cargo_docs_emits|apply is_other_not_exit].
  simpl in Ht5.
  set (sc1 := if book then 1%nat else 0%nat) in H.
  match type of H with bind _ ?k _ = _ => set (rest := k) in H end.
  assert (∃ w6 t_conv t_clean,
    trace w6 = (trace w5 ++ [EvReturned BuildDocs built]) ++ t_conv ++ t_clean ∧
    (if built
     then forallb conversion_event t_conv = true ∧
          map fst (stage_returns t_conv) = map ConvertDocs (crates req) ∧
          forallb io_event t_clean = true
     else t_conv = [] ∧ t_clean = []) ∧
    rest (if built then S sc1 else sc1) w6 = (Raise (Exit c), w'))
    as (w6 & t_conv & t_clean & Ht6 & Hdocs & H').
  { destruct built.
    - rewrite bind_assoc_at in H.
      apply (bind_exit conversion_event is_other) in H
        as ([] & wc & t_conv & Hc & Htc & HPc & H);
        [|apply convert_each_emits|apply is_other_not_exit].
      apply convert_each_inv in Hc as (t_conv' & Htc' & _ & Hrc).
      rewrite Htc in Htc'. apply app_inv_head in Htc' as <-.
      cbv beta zeta in H. rewrite bind_assoc_at in H.
      apply (bind_exit io_event is_other) in H
        as (found & w6a & t_found & _ & Ht6a & HP6a & H);
        [|emits_auto|apply is_other_not_exit].
      rewrite bind_assoc_at in H.
      apply (bind_exit io_event is_other) in H
        as (_ & w6 & t_clean & _ & Ht6 & HP6 & H);
        [|emits_auto|apply is_other_not_exit].
      exists w6, t_conv, (t_found ++ t_clean).
      split; [|split; [by rewrite forallb_app, HP6a, HP6|exact H]].
      rewrite Ht6, Ht6a, Htc. simpl. by rewrite <-!(assoc_L (++)).
    - eexists _, [], []. split; [|split; [done|exact H]].
      simpl. by rewrite app_nil_r. }
  clear H. subst rest. cbv beta in H'.
  set (sc2 := if built then S sc1 else sc1) in H'.
  match type of H' with bind _ ?k _ = _ => set (rest := k) in H' end.
  assert (∃ w7 t_ex fetched,
    trace w7 = trace w6 ++ t_ex ∧
    (if include_examples req
     then ∃ t, forallb io_event t = true ∧
               t_ex = t ++ [EvReturned FetchExamples fetched]
     else t_ex = [] ∧ fetched = true) ∧
    rest (if include_examples req && fetched then S sc2 else sc2) w7
      = (Raise (Exit c), w'))
    as (w7 & t_ex & fetched & Ht7 & Hex & H).
  { destruct (include_examples req).
    - rewrite bind_assoc_at in H'.
      eapply returning_exit in H' as (fetched & w7 & t & _ & Ht7 & HP7 & H);
        [|apply fetch_examples_emits|apply is_other_not_exit].
      exists (World (fs w7) (trace w7 ++ [EvReturned FetchExamples fetched])),
        (t ++ [EvReturned FetchExamples fetched]), fetched.
      split; [|split; [by exists t|]].
      + simpl. by rewrite Ht7, (assoc_L (++)).
      + simpl. destruct fetched; exact H.
    - exists w6, [], true. split; [by rewrite app_nil_r|]. by split. }
  clear H'. subst rest. cbv beta in H.
  set (sc3 := if include_examples req && fetched then S sc2 else sc2) in H.
  apply (bind_exit io_event is_other) in H
    as ([] & w8 & t8 & Hidx & _ & _ & H);
    [|apply create_index_emits|apply is_other_not_exit].
  apply create_index_inv in Hidx as [Hfs8 Ht8]. fold readme text in Hfs8, Ht8.
  assert (∃ t_post,
    forallb summary_event t_post = true ∧
    w' = World (fs w8) (trace w8 ++ t_post) ∧
    c = if (sc3 =? 2 + (if include_examples req then 1 else 0))%nat
        then 0 else 1) as (t_post & Hpost & -> & ->).
  { destruct (sc3 =? _)%nat;
      repeat (cbv beta in H; apply print_exit in H);
      cbv beta in H; unfold raise in H;
      injection H as <- <-; eexists; (split; [|split; [|done]]); simpl;
      [|rewrite <-!(assoc_L (++)); reflexivity| |rewrite <-!(assoc_L (++)); reflexivity];
      done. }
  clear H. simpl.
  exists book, built, fetched, (t1 ++ t2 ++ t3), t_book, t_build, t_conv, t_clean,
    t_ex, (EvPrint (MIndexCreated readme) :: t_post).
  split.
  { rewrite Ht8, Ht7, Ht6, Ht5, Ht4, Ht3, Ht2, Ht1. simpl.
    by rewrite <-!(assoc_L (++)). }
  rewrite !forallb_app, HP1, HP2, HP3.
  repeat (split; [done|]). split.
  { rewrite Hfs8. apply lookup_insert_eq. }
  subst sc3 sc2 sc1.
  destruct book, built, (include_examples req), fetched;
    simpl in *; try done; by destruct Hex.
Qed.


(** The outcomes main has received by the time it exits. *)
Lemma main_exit_returns env req w c w' :
  main env req w = (Raise (Exit c), w') →
  ∃ evs book built fetched convs,
    trace w' = trace w ++ evs ∧
    stage_returns evs =
      (CloneBook, book) :: (BuildDocs, built) :: convs
      ++ (if include_examples req then [(FetchExamples, fetched)] else []) ∧
    map fst convs = (if built then map ConvertDocs (crates req) else []) ∧
    (include_examples req = false → fetched = true) ∧
    c = (if book && built && fetched then 0 else 1).
Proof.
  intros H. apply main_exit_inv in H
    as (book & built & fetched & t_pre & t_book & t_build & t_conv & t_clean
        & t_ex & t_post & Ht & Hpre & Hbook & Hbuild & Hdocs & Hex & Hpost
        & _ & Hc).
  eexists _, book, built, fetched, (stage_returns t_conv).
  split; [exact Ht|].
  rewrite !stage_returns_app.
  rewrite (io_event_no_return _ Hpre), (io_event_no_return _ Hbook),
    (io_event_no_return _ Hbuild).
  apply summary_event_io in Hpost as [Hpost _].
  rewrite (io_event_no_return _ Hpost).
  assert (stage_returns t_clean = []) as ->.
  { destruct built; [apply io_event_no_return; by destruct Hdocs as (_ & _ & ?)|].
    by destruct Hdocs as [_ ->]. }
  assert (stage_returns t_ex =
          if include_examples req then [(FetchExamples, fetched)] else []) as ->.
  { destruct (include_examples req).
    - destruct Hex as (t & Hio & ->).
      by rewrite stage_returns_app, (io_event_no_return _ Hio).
    - by destruct Hex as [-> _]. }
  simpl. rewrite app_nil_r. split; [done|]. split.
  { destruct built; [by destruct Hdocs as (_ & ? & _)|].
    by destruct Hdocs as [-> _]. }
  split; [|done]. intros Hinc. rewrite Hinc in Hex. by destruct Hex.
Qed.

Lemma conversions_not_counted (convs : list (stage * bool)) (l : list string) :
  map fst convs = map ConvertDocs l →
  List.filter (λ sb, counted sb.1) convs = [] ∧
  omap (λ sb, match sb.1 with BuildDocs => Some sb.2 | _ => None end) convs = [] ∧
  omap (λ sb, match sb.1 with ConvertDocs crate => Some crate | _ => None end) convs = l.
Proof.
  revert l. induction convs as [|[s b] convs IH]; intros [|x l] Hl; try done.
  simpl in Hl. injection Hl as -> Hl. destruct (IH l Hl) as (H1 & H2 & H3).
  split_and!; simpl; [done..|by f_equal].
Qed.

(** ** Exit code and stage outcomes *)

(** C1 (as amended): when main leaves with an exit code, the outcomes that
    count are those of clone_iced_book, build_cargo_docs and, if examples
    were asked for, fetch_examples, one each and in this order; the exit
    code is 0 when all of them are True and 1 otherwise.  The outcome of a
    crate's conversion is not among them. *)
Theorem exit_code_counts_stages env req w c w' evs :
  main env req w = (Raise (Exit c), w') →
  trace w' = trace w ++ evs →
  map fst (counted_outcomes evs) =
    [CloneBook; BuildDocs]
    ++ (if include_examples req then [FetchExamples] else []) ∧
  c = (if forallb snd (counted_outcomes evs) then 0 else 1).
Proof.
  intros H Hevs.
  apply main_exit_returns in H
    as (evs' & book & built & fetched & convs & Ht & Hr & Hconvs & Hf & ->).
  rewrite Ht in Hevs. apply (inj (app (trace w))) in Hevs as <-.
  unfold counted_outcomes. rewrite Hr. simpl. rewrite List.filter_app.
  assert (List.filter (λ sb, counted sb.1) convs = []) as ->.
  { destruct built; [by eapply conversions_not_counted|].
    by destruct convs. }
  destruct (include_examples req); simpl.
  - split; [done|]. by destruct book, built, fetched.
  - rewrite (Hf eq_refl). split; [done|]. by destruct book, built.
Qed.

(** On the machine where everything works. *)
Lemma exit_code_counts_stages_witness :
  let r := main healthy demo_request empty_world in
  r = (Raise (Exit 0), r.2) ∧
  trace r.2 = trace empty_world ++ trace r.2 ∧
  map fst (counted_outcomes (trace r.2)) =
    [CloneBook; BuildDocs]
    ++ (if include_examples demo_request then [FetchExamples] else []) ∧
  0 = (if forallb snd (counted_outcomes (trace r.2)) then 0 else 1).
Proof.
  intros r.
  assert (r.1 = Raise (Exit 0)) as H0 by (vm_compute; reflexivity).
  assert (r = (Raise (Exit 0), r.2)) as H1
    by (rewrite <-H0; apply surjective_pairing).
  assert (trace r.2 = trace empty_world ++ trace r.2) as H2 by reflexivity.
  split; [exact H1|]. split; [exact H2|].
  exact (exit_code_counts_stages healthy demo_request empty_world 0 r.2
           (trace r.2) H1 H2).
Defined.

(** C1, as stated, fails: every page of every crate fails to convert, all
    five conversions are False, and the exit code is 0. *)
Lemma failed_conversions_exit_0 :
  let r := main pages_fail demo_request empty_world in
  r.1 = Raise (Exit 0) ∧
  stage_returns (trace r.2) =
    [(CloneBook, true); (BuildDocs, true);
     (ConvertDocs "iced", false); (ConvertDocs "iced_core", false);
     (ConvertDocs "iced_widget", false); (ConvertDocs "iced_runtime", false);
     (ConvertDocs "iced_layershell", false)].
Proof. vm_compute. by split. Qed.

(** C2 (as amended): the documentation of all the crates is built by one
    call, so a run that reaches its exit code has exactly one build outcome;
    if it is True there is one conversion outcome per entry of the crate
    list, in the list's order (a name listed twice is converted twice), and
    if it is False there is no conversion outcome at all. *)
Theorem one_build_then_one_conversion_per_entry env req w c w' evs :
  main env req w = (Raise (Exit c), w') →
  trace w' = trace w ++ evs →
  ∃ built,
    build_outcomes evs = [built] ∧
    converted_units evs = (if built then crates req else []).
Proof.
  intros H Hevs.
  apply main_exit_returns in H
    as (evs' & book & built & fetched & convs & Ht & Hr & Hconvs & _ & _).
  rewrite Ht in Hevs. apply (inj (app (trace w))) in Hevs as <-.
  exists built. unfold build_outcomes, converted_units. rewrite Hr. simpl.
  rewrite !omap_app.
  assert (map fst convs = map ConvertDocs (if built then crates req else []))
    as Hc by (by destruct built).
  apply conversions_not_counted in Hc as (_ & -> & ->).
  by destruct (include_examples req); simpl; rewrite app_nil_r.
Qed.

Lemma one_build_then_one_conversion_per_entry_witness :
  let r := main healthy demo_request empty_world in
  r = (Raise (Exit 0), r.2) ∧
  trace r.2 = trace empty_world ++ trace r.2 ∧
  ∃ built,
    build_outcomes (trace r.2) = [built] ∧
    converted_units (trace r.2) = (if built then crates demo_request else []).
Proof.
  intros r.
  assert (r.1 = Raise (Exit 0)) as H0 by (vm_compute; reflexivity).
  assert (r = (Raise (Exit 0), r.2)) as H1
    by (rewrite <-H0; apply surjective_pairing).
  assert (trace r.2 = trace empty_world ++ trace r.2) as H2 by reflexivity.
  split; [exact H1|]. split; [exact H2|].
  exact (one_build_then_one_conversion_per_entry healthy demo_request
           empty_world 0 r.2 (trace r.2) H1 H2).
Defined.

(** C2, as stated, fails: cargo doc exits with 101, the run ends with exit
    code 1, and the requested crate iced has no conversion outcome. *)
Lemma failed_build_omits_conversions :
  let r := main cargo_fails demo_request empty_world in
  r.1 = Raise (Exit 1) ∧
  "iced" ∈ crates demo_request ∧
  build_outcomes (trace r.2) = [false] ∧
  converted_units (trace r.2) = [].
Proof. vm_compute. split_and!; [done|apply list_elem_of_here|done..]. Qed.

Lemma io_event_unmentioned (e : event) :
  io_event e = true → quiet_event e = true.
Proof. by destruct e as [m| | | |]. Qed.

Lemma quiet_no_mention (t : list event) :
  forallb quiet_event t = true → List.filter mentions_conversion t = [].
Proof.
  induction t as [|e t IH]; simpl; [done|].
  intros [He Ht]%andb_true_iff. rewrite (IH Ht).
  unfold quiet_event in He. by apply negb_true_iff in He as ->.
Qed.

Lemma no_mention_no_conversion (t : list event) :
  List.filter mentions_conversion t = [] →
  conversions_attempted t = [] ∧ converted_units t = [].
Proof.
  unfold converted_units, conversions_attempted, stage_returns.
  induction t as [|e t IH]; simpl; [done|].
  destruct (mentions_conversion e) eqn:He; [done|]. intros Ht.
  destruct (IH Ht) as [IH1 IH2].
  by destruct e as [m| | | |s b]; simpl in *; try done; destruct s.
Qed.

Lemma build_outcomes_true (t : list event) :
  EvReturned BuildDocs true ∈ t → true ∈ build_outcomes t.
Proof.
  unfold build_outcomes, stage_returns.
  induction t as [|e t IH]; [by intros ?%elem_of_nil|].
  intros [<-|Hin]%elem_of_cons; simpl.
  - apply list_elem_of_here.
  - specialize (IH Hin).
    destruct e as [| | | |s b]; simpl; try done.
    destruct s; simpl; try done. by apply list_elem_of_further.
Qed.

Lemma silent_bind {A B} Q (m : M A) (k : A → M B) :
  emits quiet_event Q m → (∀ a, silent_unless_built (k a)) →
  silent_unless_built (bind m k).
Proof.
  intros Hm Hk w. unfold bind.
  destruct (Hm w) as (evs & Ht & HP & _).
  destruct (m w) as [[a|e] w1]; simpl in *; [|exists evs; by auto].
  destruct (Hk a w1) as (evs' & Ht' & H').
  exists (evs ++ evs'). rewrite Ht', Ht, (assoc_L (++)). split; [done|].
  destruct H' as [H'|H'].
  - left. by rewrite forallb_app, HP, H'.
  - right. apply elem_of_app. by right.
Qed.

Ltac stage_emits :=
  first
    [ apply emits_returning; [|by intros []]
    | eapply emits_mono;
      [eapply emits_weaken_exn;
       [first [ apply clone_iced_book_emits | apply build_cargo_docs_emits
              | apply fetch_examples_emits | apply create_index_emits
              | apply convert_each_emits ]
       |by intros ?]
      |first [apply io_event_unmentioned | by intros ?]]
    | emits_step ].

(** Whichever way main ends, it has done nothing about a conversion unless
    build_cargo_docs returned True. *)
Lemma main_silent_unless_built env req :
  silent_unless_built (main env req).
Proof.
  unfold main.
  do 3 (apply (silent_bind (λ _, True)); [emits_auto|intros _]).
  apply (silent_bind (λ _, True)); [repeat stage_emits|intros book].
  unfold returning at 1. intros w. rewrite !bind_assoc_at.
  destruct (build_cargo_docs_emits env (crates req) (version req)
              (layershell_version req) (output_dir req) w)
    as (evs & Ht & HP & _).
  assert (forallb quiet_event evs = true) as HP'.
  { apply forallb_forall. intros e He. apply io_event_unmentioned.
    by eapply forallb_forall in HP. }
  unfold bind at 1.
  destruct (build_cargo_docs env _ _ _ _ w) as [[built|e] w1]; simpl in *;
    [|exists evs; by auto].
  unfold bind at 1, log at 1, ret at 1. cbv beta.
  unfold bind at 1. cbv iota beta.
  match goal with
  | |- ∃ _, trace (bind ?m ?k ?w0).2 = _ ∧ _ =>
      assert (emits (if built then λ _, true else quiet_event) (λ _, True)
                (bind m k)) as Hrest
  end.
  { destruct built; repeat stage_emits. }
  match goal with
  | |- ∃ _, trace (?p ?w0).2 = _ ∧ _ =>
      destruct (Hrest w0) as (evs' & Ht' & HP'' & _)
  end.
  simpl in Ht'.
  exists (evs ++ [EvReturned BuildDocs built] ++ evs').
  rewrite Ht', Ht, <-!(assoc_L (++)). split; [done|].
  destruct built.
  - right. apply elem_of_app. right. apply list_elem_of_here.
  - left. by rewrite !forallb_app, HP', HP''.
Qed.

(** C3 (as amended): when build_cargo_docs has returned False, main,
    whichever way it ends, calls the converter for no crate, receives no
    conversion outcome and prints nothing about a conversion; and a call of
    convert_cargo_docs for a crate whose documentation directory does not
    exist never calls the converter and never returns True: it prints the
    warning and returns False when the existence check does not raise and
    the console takes the line. *)
Theorem conversion_not_attempted_without_docs :
  (∀ env req w evs,
     trace (main env req w).2 = trace w ++ evs →
     build_outcomes evs = [false] →
     conversions_attempted evs = [] ∧
     converted_units evs = [] ∧
     List.filter mentions_conversion evs = []) ∧
  (∀ env crate output_dir w,
     let doc_dir := (output_dir / "cargo-temp" / "target" / "doc" / crate)%path in
     let r := convert_cargo_docs env crate output_dir w in
     exists_at (fs w) doc_dir = false →
     r.1 ≠ Ret true ∧
     conversions_attempted (trace r.2) = conversions_attempted (trace w) ∧
     (exists_fault env (fs w) doc_dir = None →
      markup_fault env (MNoDocsFound crate) = None →
      r = (Ret false, World (fs w) (trace w ++ [EvPrint (MNoDocsFound crate)])))).
Proof.
  split.
  - intros env req w evs Hevs Hb.
    destruct (main_silent_unless_built env req w) as (evs' & Ht & H).
    rewrite Ht in Hevs. apply (inj (app (trace w))) in Hevs as ->.
    destruct H as [H|H].
    + apply quiet_no_mention in H.
      by destruct (no_mention_no_conversion _ H).
    + apply build_outcomes_true in H. rewrite Hb in H.
      by apply list_elem_of_singleton in H.
  - intros env crate output_dir w doc_dir r Hno. subst r.
    unfold convert_cargo_docs, bind, path_exists, console_print.
    fold doc_dir. rewrite Hno. simpl.
    destruct (exists_fault env (fs w) doc_dir) as [e|]; simpl; [done|].
    destruct (markup_fault env (MNoDocsFound crate)) as [e|]; simpl;
      [done|].
    rewrite conversions_attempted_app. simpl. by rewrite app_nil_r.
Qed.

Lemma conversion_not_attempted_without_docs_witness :
  let r := main cargo_fails demo_request empty_world in
  let doc_dir := (demo_out / "cargo-temp" / "target" / "doc" / "iced")%path in
  let r' := convert_cargo_docs healthy "iced" demo_out empty_world in
  (trace r.2 = trace empty_world ++ trace r.2 ∧
   build_outcomes (trace r.2) = [false] ∧
   conversions_attempted (trace r.2) = [] ∧
   converted_units (trace r.2) = [] ∧
   List.filter mentions_conversion (trace r.2) = []) ∧
  (exists_at (fs empty_world) doc_dir = false ∧
   exists_fault healthy (fs empty_world) doc_dir = None ∧
   markup_fault healthy (MNoDocsFound "iced") = None ∧
   r'.1 ≠ Ret true ∧
   conversions_attempted (trace r'.2) = conversions_attempted (trace empty_world) ∧
   r' = (Ret false, World ∅ [EvPrint (MNoDocsFound "iced")])).
Proof.
  intros r doc_dir r'.
  assert (trace r.2 = trace empty_world ++ trace r.2) as H2 by reflexivity.
  assert (build_outcomes (trace r.2) = [false]) as H3 by (vm_compute; reflexivity).
  assert (exists_at (fs empty_world) doc_dir = false)
    as H4 by (vm_compute; reflexivity).
  assert (exists_fault healthy (fs empty_world) doc_dir = None) as H5
    by reflexivity.
  assert (markup_fault healthy (MNoDocsFound "iced") = None) as H6
    by (vm_compute; reflexivity).
  split.
  - split; [exact H2|]. split; [exact H3|].
    exact (proj1 conversion_not_attempted_without_docs cargo_fails demo_request
             empty_world (trace r.2) H2 H3).
  - split; [exact H4|]. split; [exact H5|]. split; [exact H6|].
    destruct (proj2 conversion_not_attempted_without_docs healthy "iced" demo_out
                empty_world H4) as (Hr1 & Hr2 & Hr3).
    split; [exact Hr1|]. split; [exact Hr2|]. exact (Hr3 H5 H6).
Defined.

(** C3, as stated, fails: cargo doc exits with 101, build_cargo_docs
    returns False, and the run records nothing for the conversion of the
    requested crate iced, neither an outcome nor a line on the console. *)
Lemma failed_build_records_no_skip :
  let r := main cargo_fails demo_request empty_world in
  r.1 = Raise (Exit 1) ∧
  "iced" ∈ crates demo_request ∧
  stage_returns (trace r.2) = [(CloneBook, true); (BuildDocs, false)] ∧
  List.filter is_print (trace r.2) =
    map EvPrint
      [MFetching "0.13.1"; MOutputDirectory demo_out; MCloningBook;
       MBookCopied (demo_out / "book")%path;
       MBuildingDocs (crates demo_request);
       MRunningCargoDoc;
       MCargoDocFailed "error: failed to select a version for iced";
       MIndexCreated (demo_out / "README.md")%path; MSummary;
       MCompleted 1 2; MOutput demo_out; MTasksFailed 1].
Proof. vm_compute. split_and!; [done|apply list_elem_of_here|done..]. Qed.

Lemma try_bind_at {A B} (m : M A) (k : A → M B) (h : exn → option (M B)) w :
  try_except (bind m k) h w =
  match m w with
  | (Ret a, w1) => try_except (k a) h w1
  | (Raise e, w1) =>
      match h e with
      | Some handler => handler w1
      | None => (Raise e, w1)
      end
  end.
Proof. unfold try_except, bind. by destruct (m w) as [[a|e] w1]. Qed.

Lemma no_clone_attempts (t : list event) :
  forallb no_clone t = true → clone_attempts t = [].
Proof.
  induction t as [|e t IH]; simpl; [done|].
  intros [He Ht]%andb_true_iff. unfold clone_attempts in *. simpl.
  rewrite (IH Ht). destruct e; simpl in *; try done.
  by apply negb_true_iff in He as ->.
Qed.

Lemma clone_attempts_app (t1 t2 : list event) :
  clone_attempts (t1 ++ t2) = clone_attempts t1 ++ clone_attempts t2.
Proof. apply omap_app. Qed.



(** ** The conversion loop *)

Lemma renders_print env m w :
  renders env m = true →
  console_print env m w = (Ret tt, World (fs w) (trace w ++ [EvPrint m])).
Proof.
  unfold renders, console_print.
  by destruct (if interpolated m then markup_fault env m else None).
Qed.

(** As long as the console shows the warnings, the loop counts every
    item. *)
Lemma classify_spec env items success_count error_count w :
  forallb (renders env) (omap file_warning_line items) = true →
  classify env items success_count error_count w =
    (Ret ((success_count + length (List.filter is_written items))%nat,
          (error_count
           + length (List.filter (λ item, negb (is_written item)) items))%nat),
     World (fs w) (trace w ++ omap file_warning items)).
Proof.
  revert success_count error_count w.
  induction items as [|[f [out|err]] items IH]; intros s e w Hshown; simpl.
  - unfold ret. rewrite app_nil_r, !Nat.add_0_r. by destruct w.
  - rewrite IH by done. unfold is_written at 1 3. simpl.
    by rewrite Nat.add_succ_r.
  - simpl in Hshown. apply andb_true_iff in Hshown as [Hm Hshown].
    unfold bind. rewrite (renders_print _ _ _ Hm), IH by done. simpl.
    unfold is_written at 1 3. simpl.
    by rewrite Nat.add_succ_r, <-(assoc_L (++)).
Qed.

(** X19: the first warning the console refuses ends the loop: the items
    before it have been gone through and their warnings shown, the loop
    leaves with the exception of the console, and the items after it are
    not looked at, whatever they are. *)
Theorem refused_warning_ends_the_loop env before name err after
    success_count error_count w e :
  forallb (renders env) (omap file_warning_line before) = true →
  markup_fault env (MFileFailed name err) = Some e →
  classify env (before ++ (name, FileError err) :: after)
    success_count error_count w =
    (Raise (OtherException e),
     World (fs w) (trace w ++ omap file_warning before)).
Proof.
  revert success_count error_count w.
  induction before as [|[f [out|err']] before IH]; intros s n w Hshown He;
    simpl.
  - unfold bind, console_print. simpl. rewrite He, app_nil_r. by destruct w.
  - by rewrite IH.
  - simpl in Hshown. apply andb_true_iff in Hshown as [Hm Hshown].
    unfold bind. rewrite (renders_print _ _ _ Hm), IH by done. simpl.
    by rewrite <-(assoc_L (++)).
Qed.

Lemma refused_warning_ends_the_loop_witness :
  let before := [("index.html", FileError "unsupported markup")] in
  let after := [("widget.html", Written ["widget.md"])] in
  let err := "unexpected closing tag [/div]" in
  let e := "MarkupError: closing tag in unexpected closing tag [/div]" in
  forallb (renders markup_in_error) (omap file_warning_line before) = true ∧
  markup_fault markup_in_error (MFileFailed "all.html" err) = Some e ∧
  classify markup_in_error (before ++ ("all.html", FileError err) :: after)
    0 0 empty_world =
    (Raise (OtherException e),
     World (fs empty_world)
       (trace empty_world ++ omap file_warning before)).
Proof.
  intros before after err e.
  assert (forallb (renders markup_in_error) (omap file_warning_line before)
          = true) as H1 by (vm_compute; reflexivity).
  assert (markup_fault markup_in_error (MFileFailed "all.html" err) = Some e)
    as H2 by (vm_compute; reflexivity).
  split; [exact H1|]. split; [exact H2|].
  exact (refused_warning_ends_the_loop markup_in_error before "all.html" err
           after 0%nat 0%nat empty_world e H1 H2).
Defined.

Lemma partition_length (items : list (string * file_result)) :
  (length (List.filter is_written items)
   + length (List.filter (λ item, negb (is_written item)) items)
   = length items)%nat.
Proof.
  induction items as [|item items IH]; simpl; [done|].
  destruct (is_written item); simpl; lia.
Qed.

Lemma convert_loop_spec env doc_dir markdown_dir w :
  let c := convert_dir env (fs w) doc_dir markdown_dir in
  forallb (renders env) (omap file_warning_line (yielded c)) = true →
  convert_loop env doc_dir markdown_dir w =
    (match gen_fault c with
     | None =>
         Ret (length (List.filter is_written (yielded c)),
              length (List.filter (λ item, negb (is_written item)) (yielded c)))
     | Some e => Raise (OtherException e)
     end,
     World (conv_fs c)
       (trace w ++ EvConvertDirectory doc_dir markdown_dir
                :: omap file_warning (yielded c))).
Proof.
  intros c Hshown. unfold convert_loop, bind, convert_directory. fold c.
  rewrite classify_spec by done. simpl. rewrite <-(assoc_L (++)). simpl.
  by destruct (gen_fault c).
Qed.

(** C5 fails on the script as written.  The only statement of the loop
    that can raise is the warning about a failed item, which interpolates
    the item's error into rich markup: when that error quotes a closing tag
    the console raises, the loop ends at this item, the page after it is
    never counted, and convert_cargo_docs leaves with the exception where
    two pages had been converted.  As long as the console shows the warnings,
    the loop goes through every item the converter yields, a failed item
    only adds to the error count and a warning, and every item has been
    counted once, as a success or as a failure. *)
Theorem warning_markup_ends_the_loop :
  (let doc_dir := (demo_out / "cargo-temp" / "target" / "doc" / "iced")%path in
   let markdown_dir := (demo_out / "iced-api")%path in
   let c := convert_dir markup_in_error (fs built_world) doc_dir markdown_dir in
   let fault := "MarkupError: closing tag in unexpected closing tag [/div]" in
   yielded c =
     [("index.html", Written (markdown_dir ++ ["index.md"]));
      ("all.html", FileError "unexpected closing tag [/div]");
      ("widget.html", Written (markdown_dir ++ ["widget.md"]))] ∧
   classify markup_in_error (yielded c) 0 0 built_world =
     (Raise (OtherException fault), built_world) ∧
   (convert_cargo_docs markup_in_error "iced" demo_out built_world).1 =
     Raise (OtherException ("MarkupError: closing tag in " +:+ fault))) ∧
  (∀ env doc_dir markdown_dir w,
     let c := convert_dir env (fs w) doc_dir markdown_dir in
     let items := yielded c in
     let successes := length (List.filter is_written items) in
     let failures := length (List.filter (λ item, negb (is_written item)) items) in
     forallb (renders env) (omap file_warning_line items) = true →
     (successes + failures = length items)%nat ∧
     (∀ w0, classify env items 0 0 w0 =
            (Ret (successes, failures),
             World (fs w0) (trace w0 ++ omap file_warning items))) ∧
     convert_loop env doc_dir markdown_dir w =
       (match gen_fault c with
        | None => Ret (successes, failures)
        | Some e => Raise (OtherException e)
        end,
        World (conv_fs c)
          (trace w ++ EvConvertDirectory doc_dir markdown_dir
                   :: omap file_warning items))).
Proof.
  split.
  { intros doc_dir markdown_dir c fault. split; [reflexivity|].
    split; [reflexivity|]. vm_compute. reflexivity. }
  intros env doc_dir markdown_dir w c items successes failures Hshown.
  split; [apply partition_length|].
  split; [intros w0; by rewrite classify_spec|].
  by apply convert_loop_spec.
Qed.

(** One page converted and two warned about. *)
Lemma warning_markup_ends_the_loop_witness :
  let doc_dir := (demo_out / "cargo-temp" / "target" / "doc" / "iced")%path in
  let markdown_dir := (demo_out / "iced-api")%path in
  let c := convert_dir mixed_pages (fs built_world) doc_dir markdown_dir in
  forallb (renders mixed_pages) (omap file_warning_line (yielded c)) = true ∧
  (1 + 2 = length (yielded c))%nat ∧
  (∀ w0, classify mixed_pages (yielded c) 0 0 w0 =
         (Ret (1%nat, 2%nat),
          World (fs w0) (trace w0 ++ omap file_warning (yielded c)))) ∧
  convert_loop mixed_pages doc_dir markdown_dir built_world =
    (Ret (1%nat, 2%nat),
     World (conv_fs c)
       (trace built_world ++ EvConvertDirectory doc_dir markdown_dir
                          :: omap file_warning (yielded c))).
Proof.
  intros doc_dir markdown_dir c.
  assert (forallb (renders mixed_pages) (omap file_warning_line (yielded c))
          = true) as H1 by (vm_compute; reflexivity).
  split; [exact H1|].
  exact (proj2 warning_markup_ends_the_loop mixed_pages doc_dir markdown_dir
           built_world H1).
Defined.

Lemma convert_cargo_docs_run env crate output_dir w :
  let doc_dir := (output_dir / "cargo-temp" / "target" / "doc" / crate)%path in
  let markdown_dir := (output_dir / (crate +:+ "-api"))%path in
  let c := convert_dir env (fs w) doc_dir markdown_dir in
  let successes := length (List.filter is_written (yielded c)) in
  let failures :=
    length (List.filter (λ item, negb (is_written item)) (yielded c)) in
  exists_fault env (fs w) doc_dir = None →
  exists_at (fs w) doc_dir = true →
  forallb (renders env) (conversion_lines crate markdown_dir c) = true →
  convert_cargo_docs env crate output_dir w =
    (Ret (match gen_fault c with
          | None => negb (successes =? 0)%nat
          | Some _ => false
          end),
     World (conv_fs c)
       (trace w
        ++ [EvPrint (MConverting crate); EvConvertDirectory doc_dir markdown_dir]
        ++ omap file_warning (yielded c)
        ++ [EvPrint (closing_line crate markdown_dir c)]
        ++ (match gen_fault c with
            | None =>
                if negb (successes =? 0)%nat && (0 <? failures)%nat
                then [EvPrint (MFilesFailed failures)] else []
            | Some _ => []
            end))).
Proof.
  intros doc_dir markdown_dir c successes failures Hex Hdir Hshown.
  unfold conversion_lines in Hshown. simpl in Hshown.
  apply andb_true_iff in Hshown as [Hconv Hshown].
  rewrite forallb_app in Hshown. apply andb_true_iff in Hshown as [Hwarn Hclose].
  simpl in Hclose. rewrite andb_true_r in Hclose.
  unfold convert_cargo_docs. fold doc_dir markdown_dir.
  unfold bind at 1, path_exists at 1. rewrite Hex, Hdir. simpl.
  unfold bind at 1. rewrite (renders_print _ _ _ Hconv).
  unfold try_except. unfold bind at 1.
  pose proof (convert_loop_spec env doc_dir markdown_dir
                (World (fs w) (trace w ++ [EvPrint (MConverting crate)])))
    as Hloop.
  simpl in Hloop. fold c in Hloop. rewrite Hloop by done. clear Hloop.
  unfold closing_line in *. fold successes in Hclose |- *.
  destruct (gen_fault c) as [e|].
  - unfold bind. rewrite (renders_print _ _ _ Hclose). simpl.
    by rewrite <-!(assoc_L (++)).
  - fold failures. destruct (successes =? 0)%nat eqn:Hs; simpl.
    + unfold bind. rewrite (renders_print _ _ _ Hclose). simpl.
      by rewrite <-!(assoc_L (++)).
    + unfold bind at 1. rewrite (renders_print _ _ _ Hclose).
      destruct (0 <? failures)%nat; cbv [bind console_print interpolated ret];
        simpl; by rewrite <-!(assoc_L (++)).
Qed.

(** C4 (as amended): with the crate's documentation in place and the
    console showing the lines of the call, convert_cargo_docs returns True
    when the converter has yielded its results to the end and at least one
    item succeeded, however many failed, and False when none did; when the
    converter itself raises before the end it returns False whatever the
    number of successes. *)
Theorem one_success_is_enough env crate output_dir w :
  let doc_dir := (output_dir / "cargo-temp" / "target" / "doc" / crate)%path in
  let markdown_dir := (output_dir / (crate +:+ "-api"))%path in
  let c := convert_dir env (fs w) doc_dir markdown_dir in
  let successes := length (List.filter is_written (yielded c)) in
  exists_fault env (fs w) doc_dir = None →
  exists_at (fs w) doc_dir = true →
  forallb (renders env) (conversion_lines crate markdown_dir c) = true →
  ∃ completed,
    (convert_cargo_docs env crate output_dir w).1 = Ret completed ∧
    match gen_fault c with
    | None =>
        (completed = true ↔ (1 ≤ successes)%nat) ∧
        (completed = false ↔ successes = 0%nat)
    | Some _ => completed = false
    end.
Proof.
  intros doc_dir markdown_dir c successes Hex Hdir Hshown.
  rewrite (convert_cargo_docs_run env crate output_dir w Hex Hdir Hshown).
  fold doc_dir markdown_dir c successes. simpl.
  eexists. split; [reflexivity|].
  destruct (gen_fault c); [done|].
  destruct successes as [|n]; simpl.
  - split; [|done]. split; [done|lia].
  - split; [|done]. split; [lia|done].
Qed.

Lemma one_success_is_enough_witness :
  let doc_dir := (demo_out / "cargo-temp" / "target" / "doc" / "iced")%path in
  let markdown_dir := (demo_out / "iced-api")%path in
  let c := convert_dir mixed_pages (fs built_world) doc_dir markdown_dir in
  let successes := length (List.filter is_written (yielded c)) in
  exists_fault mixed_pages (fs built_world) doc_dir = None ∧
  exists_at (fs built_world) doc_dir = true ∧
  forallb (renders mixed_pages) (conversion_lines "iced" markdown_dir c) = true ∧
  ∃ completed,
    (convert_cargo_docs mixed_pages "iced" demo_out built_world).1
      = Ret completed ∧
    match gen_fault c with
    | None =>
        (completed = true ↔ (1 ≤ successes)%nat) ∧
        (completed = false ↔ successes = 0%nat)
    | Some _ => completed = false
    end.
Proof.
  intros doc_dir markdown_dir c successes.
  assert (exists_fault mixed_pages (fs built_world) doc_dir = None) as H0
    by reflexivity.
  assert (exists_at (fs built_world) doc_dir = true) as H1
    by (vm_compute; reflexivity).
  assert (forallb (renders mixed_pages) (conversion_lines "iced" markdown_dir c)
          = true) as H2 by (vm_compute; reflexivity).
  split; [exact H0|]. split; [exact H1|]. split; [exact H2|].
  exact (one_success_is_enough mixed_pages "iced" demo_out built_world H0 H1 H2).
Defined.

(** C4, as stated, fails: the converter yields one converted page and then
    raises; the success count is 1 and convert_cargo_docs returns False. *)
Lemma converter_fault_after_success_is_failed :
  let doc_dir := (demo_out / "cargo-temp" / "target" / "doc" / "iced")%path in
  let markdown_dir := (demo_out / "iced-api")%path in
  let c := convert_dir converter_breaks (fs built_world) doc_dir markdown_dir in
  yielded c ≠ [] ∧
  length (List.filter is_written (yielded c)) = 1%nat ∧
  (convert_cargo_docs converter_breaks "iced" demo_out built_world).1
    = Ret false.
Proof. vm_compute. by split_and!. Qed.

(** ** Scratch directories and escaping faults *)

(** C7 fails on the script as written: cargo doc exits with 101,
    build_cargo_docs returns False, main skips the clean-up it does after a
    successful build, and cargo-temp is still under the output root when
    main exits; on the machine where everything works no scratch directory
    is left. *)
Theorem cargo_temp_left_after_failed_build :
  let r := main cargo_fails demo_request empty_world in
  let ok := main healthy demo_request_with_examples empty_world in
  (r.1 = Raise (Exit 1) ∧
   exists_at (fs r.2) (demo_out / "cargo-temp")%path = true) ∧
  (ok.1 = Raise (Exit 0) ∧
   exists_at (fs ok.2) (demo_out / "book-src")%path = false ∧
   exists_at (fs ok.2) (demo_out / "cargo-temp")%path = false ∧
   exists_at (fs ok.2) (demo_out / "iced-repo-temp")%path = false).
Proof. vm_compute. by split_and!. Qed.

(** C9 fails on the script as written: without a git executable
    subprocess.run raises FileNotFoundError; clone_iced_book catches it and
    returns False, fetch_examples does not, and main ends with that
    exception instead of an exit code. *)
Theorem fault_escapes_fetch_examples :
  (clone_iced_book git_missing demo_out empty_world).1 = Ret false ∧
  (fetch_examples git_missing "0.13.1" demo_out empty_world).1
    = Raise (OtherException "FileNotFoundError") ∧
  (main git_missing demo_request_with_examples empty_world).1
    = Raise (OtherException "FileNotFoundError").
Proof. vm_compute. by split_and!. Qed.

(** ** The manifest *)

Lemma append_nil_r (s : string) : s +:+ EmptyString = s.
Proof.
  induction s as [|a s IH]; [done|].
  change (String a (s +:+ EmptyString) = String a s). by rewrite IH.
Qed.

Lemma append_assoc (s1 s2 s3 : string) :
  (s1 +:+ s2) +:+ s3 = s1 +:+ (s2 +:+ s3).
Proof.
  induction s1 as [|a s1 IH]; [done|].
  change (String a ((s1 +:+ s2) +:+ s3) = String a (s1 +:+ s2 +:+ s3)).
  by rewrite IH.
Qed.

Lemma plain_char_kept (a : ascii) :
  plain_char a = true →
  Ascii.eqb a quote = false ∧ Ascii.eqb a newline = false.
Proof. destruct a as [[] [] [] [] [] [] [] []]; by vm_compute. Qed.

Lemma plain_has_neither (s : string) :
  plain s = true → has_char quote s = false ∧ has_char newline s = false.
Proof.
  induction s as [|a s IH]; simpl; [done|].
  intros [Ha Hs]%andb_true_iff.
  destruct (plain_char_kept a Ha) as [-> ->]. by apply IH.
Qed.

Lemma has_char_app (c : ascii) (s1 s2 : string) :
  has_char c (s1 +:+ s2) = has_char c s1 || has_char c s2.
Proof.
  induction s1 as [|a s1 IH]; [done|].
  change (Ascii.eqb a c || has_char c (s1 +:+ s2) =
          Ascii.eqb a c || has_char c s1 || has_char c s2).
  by rewrite IH, orb_assoc.
Qed.

Lemma span_until_app (c : ascii) (s1 s2 : string) :
  has_char c s1 = false →
  span_until c (s1 +:+ String c s2) = (s1, Some s2).
Proof.
  induction s1 as [|a s1 IH]; simpl.
  - intros _. change (span_until c (String c s2) = (EmptyString, Some s2)).
    simpl. by rewrite Ascii.eqb_refl.
  - intros [Ha Hs]%orb_false_iff.
    change (span_until c (String a (s1 +:+ String c s2))
            = (String a s1, Some s2)).
    simpl. by rewrite Ha, IH.
Qed.

Lemma split_on_line (line rest : string) :
  has_char newline line = false →
  split_on newline (line +:+ nl +:+ rest) = line :: split_on newline rest.
Proof.
  induction line as [|a line IH]; simpl.
  - intros _. reflexivity.
  - intros [Ha Hs]%orb_false_iff.
    change (split_on newline (String a (line +:+ nl +:+ rest))
            = String a line :: split_on newline rest).
    simpl. by rewrite Ha, IH.
Qed.

Lemma split_on_unlines (lines : list string) :
  forallb (λ line, negb (has_char newline line)) lines = true →
  split_on newline (unlines lines) = lines ++ [EmptyString].
Proof.
  induction lines as [|line lines IH]; simpl; [done|].
  intros [Hl Hls]%andb_true_iff. apply negb_true_iff in Hl.
  by rewrite split_on_line, IH.
Qed.

Lemma unlines_app (l1 l2 : list string) :
  unlines (l1 ++ l2) = unlines l1 +:+ unlines l2.
Proof.
  induction l1 as [|line l1 IH]; simpl; [done|].
  by rewrite IH, !append_assoc.
Qed.

Lemma concat_unlines (line : string) (lines : list string) :
  String.concat nl (line :: lines) +:+ nl = unlines (line :: lines).
Proof.
  revert line. induction lines as [|line' lines IH]; intros line.
  - reflexivity.
  - change (String.concat nl (line :: line' :: lines))
      with (line +:+ nl +:+ String.concat nl (line' :: lines)).
    rewrite !append_assoc, IH. reflexivity.
Qed.

(** The manifest is its head and its entries, one per line. *)
Lemma cargo_toml_text_lines (dep : string) (deps : list string) :
  cargo_toml_text (dep :: deps) = unlines (manifest_head ++ dep :: deps).
Proof.
  rewrite unlines_app, <-concat_unlines. unfold cargo_toml_text.
  generalize (String.concat nl (dep :: deps) +:+ nl). intros entries.
  reflexivity.
Qed.

Lemma parse_dep_line (name version : string) :
  has_char space name = false → plain version = true →
  parse_dependency (dep_line name version) = Some (name, version).
Proof.
  intros Hname Hplain. unfold parse_dependency, dep_line, quoted.
  change (name +:+ " = " +:+ dq +:+ version +:+ dq)
    with (name +:+ String space ("= " +:+ dq +:+ version +:+ dq)).
  rewrite span_until_app by done.
  change (strip_prefix ("= " +:+ String quote EmptyString)
            ("= " +:+ dq +:+ version +:+ dq))
    with (Some (version +:+ String quote EmptyString)).
  destruct (plain_has_neither _ Hplain) as [Hq _].
  rewrite span_until_app by done. by rewrite Hplain.
Qed.

Lemma dep_line_one_line (name version : string) :
  has_char newline name = false → plain version = true →
  has_char newline (dep_line name version) = false.
Proof.
  intros Hname Hplain. unfold dep_line, quoted.
  destruct (plain_has_neither _ Hplain) as [_ Hn].
  by rewrite !has_char_app, Hname, Hn.
Qed.

(** What build_cargo_docs writes to Cargo.toml is the manifest for its
    arguments. *)
Lemma build_cargo_docs_manifest env crates version layershell_version
    output_dir :
  let temp_dir := (output_dir / "cargo-temp")%path in
  let manifest :=
    cargo_toml_text (dependencies crates version layershell_version) in
  emits (λ e, match e with
              | EvFs (WriteText p text) _ =>
                  bool_decide ((p, text) ∈
                    [((temp_dir / "Cargo.toml")%path, manifest);
                     ((temp_dir / "src" / "lib.rs")%path, EmptyString)])
              | _ => true
              end)
    (λ _, True)
    (build_cargo_docs env crates version layershell_version output_dir).
Proof.
  intros temp_dir manifest. unfold build_cargo_docs.
  do 2 (apply emits_bind; [emits_auto|intros _]).
  apply emits_try with (Q1 := λ _, True).
  - emits_auto; apply bool_decide_eq_true_2; repeat constructor.
  - intros e _; emits_auto.
Qed.

(** C10 (as amended): for versions that a TOML string holds as they are,
    the manifest declares, read back entry by entry, iced at the target
    version, then iced_layershell at its own version exactly when it is
    among the crates, and no other crate; and this manifest is what
    build_cargo_docs writes to Cargo.toml. *)
Theorem manifest_declares_iced_and_layershell crates version layershell_version :
  plain version = true →
  ("iced_layershell" ∈ crates → plain layershell_version = true) →
  let manifest :=
    cargo_toml_text (dependencies crates version layershell_version) in
  ∃ declared,
    manifest_dependencies manifest = Some declared ∧
    declared = claimed_dependencies crates version layershell_version ∧
    NoDup (map fst declared) ∧
    (∀ name ver,
       (name, ver) ∈ declared ↔
       (name = "iced" ∧ ver = version) ∨
       (name = "iced_layershell" ∧ ver = layershell_version ∧
        "iced_layershell" ∈ crates)) ∧
    ∀ env output_dir w evs text fault,
      trace (build_cargo_docs env crates version layershell_version
               output_dir w).2 = trace w ++ evs →
      EvFs (WriteText (output_dir / "cargo-temp" / "Cargo.toml")%path text) fault
        ∈ evs →
      text = manifest.
Proof.
  intros Hv Hlv manifest.
  exists (claimed_dependencies crates version layershell_version).
  split; [|split; [done|split; [|split]]].
  - subst manifest. unfold manifest_dependencies, dependencies,
      claimed_dependencies.
    case_bool_decide as Hin.
    + specialize (Hlv Hin).
      change ([dep_line "iced" version]
              ++ [dep_line "iced_layershell" layershell_version])
        with [dep_line "iced" version;
              dep_line "iced_layershell" layershell_version].
      rewrite cargo_toml_text_lines, split_on_unlines.
      2:{ rewrite forallb_app. apply andb_true_iff. split; [reflexivity|].
          unfold forallb. by rewrite !dep_line_one_line. }
      change (mapM parse_dependency
                [dep_line "iced" version;
                 dep_line "iced_layershell" layershell_version]
              = Some [("iced", version);
                      ("iced_layershell", layershell_version)]).
      simpl. by rewrite !parse_dep_line.
    + rewrite cargo_toml_text_lines, split_on_unlines.
      2:{ rewrite forallb_app. apply andb_true_iff. split; [reflexivity|].
          unfold forallb. by rewrite !dep_line_one_line. }
      change (mapM parse_dependency [dep_line "iced" version]
              = Some [("iced", version)]).
      simpl. by rewrite !parse_dep_line.
  - unfold claimed_dependencies. case_bool_decide; simpl.
    + apply NoDup_cons. split; [by intros ?%list_elem_of_singleton|].
      apply NoDup_singleton.
    + apply NoDup_singleton.
  - intros name ver. unfold claimed_dependencies.
    case_bool_decide; simpl.
    + rewrite !elem_of_cons, elem_of_nil. split.
      * intros [[= -> ->]|[[= -> ->]|[]]]; [by left|by right].
      * intros [[-> ->]|(-> & -> & _)]; [by left|right; by left].
    + rewrite list_elem_of_singleton. split.
      * intros [= -> ->]. by left.
      * by intros [[-> ->]|(_ & _ & ?)].
  - intros env output_dir w evs text fault Hevs Hin.
    destruct (build_cargo_docs_manifest env crates version layershell_version
                output_dir w) as (evs' & Ht & HP & _).
    rewrite Ht in Hevs. apply (inj (app (trace w))) in Hevs as ->.
    apply list_elem_of_In in Hin.
    eapply forallb_forall in HP; [|exact Hin]. simpl in HP.
    apply bool_decide_eq_true_1 in HP.
    apply elem_of_cons in HP as [Heq|HP]; [by simplify_eq|].
    apply list_elem_of_singleton in HP. injection HP as HP _.
    rewrite !path_join_part, <-!(assoc_L (++)) in HP by reflexivity.
    apply app_inv_head in HP. discriminate HP.
Qed.

Lemma manifest_declares_iced_and_layershell_witness :
  let crates := crates default_request in
  let manifest := cargo_toml_text (dependencies crates "0.13.1" "0.13.7") in
  plain "0.13.1" = true ∧
  ("iced_layershell" ∈ crates → plain "0.13.7" = true) ∧
  ∃ declared,
    manifest_dependencies manifest = Some declared ∧
    declared = claimed_dependencies crates "0.13.1" "0.13.7" ∧
    NoDup (map fst declared) ∧
    (∀ name ver,
       (name, ver) ∈ declared ↔
       (name = "iced" ∧ ver = "0.13.1") ∨
       (name = "iced_layershell" ∧ ver = "0.13.7" ∧
        "iced_layershell" ∈ crates)) ∧
    ∀ env output_dir w evs text fault,
      trace (build_cargo_docs env crates "0.13.1" "0.13.7" output_dir w).2
        = trace w ++ evs →
      EvFs (WriteText (output_dir / "cargo-temp" / "Cargo.toml")%path text) fault
        ∈ evs →
      text = manifest.
Proof.
  intros crates manifest.
  assert (plain "0.13.1" = true) as H1 by reflexivity.
  assert ("iced_layershell" ∈ crates → plain "0.13.7" = true) as H2
    by (intros _; reflexivity).
  split; [exact H1|]. split; [exact H2|].
  exact (manifest_declares_iced_and_layershell crates "0.13.1" "0.13.7" H1 H2).
Defined.

(** C10, as stated, fails: for the crates iced and iced_core and a version
    that closes its string and goes on with a line of its own, the manifest
    declares iced_core as well. *)
Lemma crafted_version_declares_another_crate :
  let crates := ["iced"; "iced_core"] in
  let manifest :=
    cargo_toml_text (dependencies crates crafted_version "0.13.7") in
  ("iced_layershell" ∉ crates) ∧
  "iced_core" ∈ crates ∧
  manifest_dependencies manifest
    = Some [("iced", "0.13"); ("iced_core", "0.13")] ∧
  manifest_dependencies manifest
    ≠ Some (claimed_dependencies crates crafted_version "0.13.7").
Proof.
  split_and!.
  - intros H. apply list_elem_of_In in H. simpl in H.
    by destruct H as [?|[?|[]]].
  - apply list_elem_of_further, list_elem_of_here.
  - vm_compute. reflexivity.
  - vm_compute. discriminate.
Qed.

(** ** The index *)

Lemma join_blocks_app (l1 l2 : list string) :
  join_blocks (l1 ++ l2) = join_blocks l1 +:+ join_blocks l2.
Proof.
  induction l1 as [|s l1 IH]; simpl; [done|].
  by rewrite IH, append_assoc.
Qed.

Lemma crate_lines_fold (crates : list string) (acc : string) :
  fold_left (λ acc crate, acc +:+ index_crate_line crate) crates acc
  = acc +:+ join_blocks (map index_crate_line crates).
Proof.
  revert acc. induction crates as [|crate crates IH]; intros acc; simpl.
  - by rewrite append_nil_r.
  - by rewrite IH, append_assoc.
Qed.

(** The text create_index writes is its blocks, one after the other. *)
Lemma index_content_blocks crates has_examples :
  index_content crates has_examples
  = join_blocks (index_blocks crates has_examples).
Proof.
  unfold index_content, index_blocks. rewrite crate_lines_fold.
  rewrite !join_blocks_app. simpl join_blocks at 1.
  destruct has_examples; simpl join_blocks;
    by rewrite ?append_nil_r, ?append_assoc.
Qed.

(** C8 (as amended): in a run that reaches its exit code the README is
    written once every stage has returned, and only console output follows.
    Its text is the header, one line per requested crate in order, the
    footer and, between those lines and the footer, at most the Examples
    block: the block is absent when examples were not asked for and present
    when they were asked for and fetch_examples returned True.  The crates
    are listed whatever became of their documentation. *)
Theorem readme_written_after_the_stages env req w c w' evs :
  main env req w = (Raise (Exit c), w') →
  trace w' = trace w ++ evs →
  let readme := (output_dir req / "README.md")%path in
  ∃ before after examples_block,
    let text :=
      join_blocks ([index_header] ++ map index_crate_line (crates req)
                   ++ examples_block ++ [index_footer]) in
    evs = before ++ [EvFs (WriteText readme text) None] ++ after ∧
    stage_returns before = stage_returns evs ∧
    forallb is_print after = true ∧
    fs w' !! readme = Some (File text) ∧
    (include_examples req = false → examples_block = []) ∧
    (include_examples req = true →
     (FetchExamples, true) ∈ stage_returns evs →
     examples_block = [index_examples]).
Proof.
  intros H Hevs readme.
  apply main_exit_inv in H
    as (book & built & fetched & t_pre & t_book & t_build & t_conv & t_clean
        & t_ex & t_post & Ht & _ & _ & _ & _ & _ & Hpost & Hfs & _).
  rewrite Ht in Hevs. apply (inj (app (trace w))) in Hevs as <-.
  apply summary_event_io in Hpost as [Hio Hpost].
  exists (t_pre ++ t_book ++ [EvReturned CloneBook book] ++ t_build
          ++ [EvReturned BuildDocs built] ++ t_conv ++ t_clean ++ t_ex),
    t_post, (if include_examples req then [index_examples] else []).
  cbv zeta. fold (index_blocks (crates req) (include_examples req)).
  rewrite <-index_content_blocks. split_and!.
  - by rewrite <-!(assoc_L (++)).
  - rewrite !stage_returns_app, (io_event_no_return _ Hio). simpl.
    by rewrite !app_nil_r.
  - done.
  - done.
  - by intros ->.
  - by intros -> _.
Qed.

Lemma readme_written_after_the_stages_witness :
  let r := main tag_missing demo_request_with_examples empty_world in
  let readme := (demo_out / "README.md")%path in
  r = (Raise (Exit 0), r.2) ∧
  trace r.2 = trace empty_world ++ trace r.2 ∧
  ∃ before after examples_block,
    let text :=
      join_blocks ([index_header]
                   ++ map index_crate_line (crates demo_request_with_examples)
                   ++ examples_block ++ [index_footer]) in
    trace r.2 = before ++ [EvFs (WriteText readme text) None] ++ after ∧
    stage_returns before = stage_returns (trace r.2) ∧
    forallb is_print after = true ∧
    fs r.2 !! readme = Some (File text) ∧
    (include_examples demo_request_with_examples = false →
     examples_block = []) ∧
    (include_examples demo_request_with_examples = true →
     (FetchExamples, true) ∈ stage_returns (trace r.2) →
     examples_block = [index_examples]).
Proof.
  intros r readme.
  assert (r.1 = Raise (Exit 0)) as H0 by (vm_compute; reflexivity).
  assert (r = (Raise (Exit 0), r.2)) as H1
    by (rewrite <-H0; apply surjective_pairing).
  assert (trace r.2 = trace empty_world ++ trace r.2) as H2 by reflexivity.
  split; [exact H1|]. split; [exact H2|].
  exact (readme_written_after_the_stages tag_missing demo_request_with_examples
           empty_world 0 r.2 (trace r.2) H1 H2).
Defined.

(** C8, as stated, fails: the iced repository cannot be cloned and cargo
    doc fails, so neither examples/ nor iced-api/ exists when main exits
    with code 1, and the README has the Examples block and a line for
    iced-api/. *)
Lemma readme_lists_what_was_not_produced :
  let r := main iced_unreachable demo_request_with_examples empty_world in
  r.1 = Raise (Exit 1) ∧
  stage_returns (trace r.2) =
    [(CloneBook, true); (BuildDocs, false); (FetchExamples, false)] ∧
  exists_at (fs r.2) (demo_out / "examples")%path = false ∧
  exists_at (fs r.2) (demo_out / "iced-api")%path = false ∧
  fs r.2 !! (demo_out / "README.md")%path =
    Some (File (join_blocks
                  ([index_header]
                   ++ map index_crate_line (crates demo_request_with_examples)
                   ++ [index_examples; index_footer]))).
Proof. vm_compute. by split_and!. Qed.

(** ** What the stages can and cannot let out *)


(** X2: convert_cargo_docs hands a boolean back whatever the converter
    does, also when the generator itself raises in the middle, unless the
    check of the documentation directory raises or the console refuses one
    of the three lines printed outside the try: the missing directory, the
    start of the conversion, the report of the failure. *)
Theorem convert_cargo_docs_returns_unless_report_fails env crate output_dir w :
  let doc_dir := (output_dir / "cargo-temp" / "target" / "doc" / crate)%path in
  let r := convert_cargo_docs env crate output_dir w in
  (∃ converted, r.1 = Ret converted) ∨
  (∃ what,
     r.1 = Raise (OtherException what) ∧
     (exists_fault env (fs w) doc_dir = Some what ∨
      markup_fault env (MNoDocsFound crate) = Some what ∨
      markup_fault env (MConverting crate) = Some what ∨
      ∃ e, markup_fault env (MFailedToConvert crate e) = Some what)).
Proof.
  intros doc_dir r. subst r.
  destruct (convert_cargo_docs env crate output_dir w) as [res w2] eqn:E.
  simpl. revert E.
  unfold convert_cargo_docs. fold doc_dir.
  unfold bind at 1, path_exists at 1.
  destruct (exists_fault env (fs w) doc_dir) as [what|] eqn:Hex;
    [intros [= <- <-]; right; exists what; by auto|].
  destruct (exists_at (fs w) doc_dir); simpl.
  - unfold bind at 1, console_print at 1. simpl.
    destruct (markup_fault env (MConverting crate)) as [what|] eqn:Hm;
      [intros [= <- <-]; right; exists what; by auto|].
    unfold try_except.
    match goal with
    | |- context [match ?body ?w0 with _ => _ end] =>
        destruct (body w0) as [[converted|e] w1]
    end; [intros [= <- <-]; left; by exists converted|].
    unfold bind, console_print. simpl.
    destruct (markup_fault env (MFailedToConvert crate e)) as [what|] eqn:Hm';
      intros [= <- <-]; [right; exists what; by eauto 6|left; by eexists].
  - unfold bind, console_print. simpl.
    destruct (markup_fault env (MNoDocsFound crate)) as [what|] eqn:Hm;
      intros [= <- <-]; [right; exists what; by auto|left; by eexists].
Qed.

(** X3: build_cargo_docs hands a boolean back unless creating cargo-temp
    fails or the console refuses a line printed outside the try.  The mkdir
    and the line that names the crates stand before the try: when the mkdir
    fails that error leaves the function and nothing else has happened; the
    other exceptions it lets out are those console.print raises on the line
    naming the crates and, inside the handler, on the report of a
    failure. *)
Theorem build_cargo_docs_returns_unless_outside_try env crates version
    layershell_version output_dir w :
  let temp_dir := (output_dir / "cargo-temp")%path in
  let r := build_cargo_docs env crates version layershell_version output_dir w in
  (∃ built, r.1 = Ret built) ∨
  (∃ what,
     fs_fault env (fs w) (Mkdir temp_dir) = Some what ∧
     r = (Raise (OtherException what),
          World (fs w) (trace w ++ [EvFs (Mkdir temp_dir) (Some what)]))) ∨
  (∃ what,
     r.1 = Raise (OtherException what) ∧
     (markup_fault env (MBuildingDocs crates) = Some what ∨
      ∃ e, markup_fault env (MFailedToBuild e) = Some what)).
Proof.
  intros temp_dir r. subst r.
  destruct (build_cargo_docs env crates version layershell_version
              output_dir w) as [res w2] eqn:E.
  simpl. revert E.
  unfold build_cargo_docs. fold temp_dir.
  unfold bind at 1, mkdir at 1, fs_call at 1.
  destruct (fs_fault env (fs w) (Mkdir temp_dir)) as [what|] eqn:Hfs;
    [intros [= <- <-]; right; left; by exists what|].
  unfold bind at 1, console_print at 1. simpl.
  destruct (markup_fault env (MBuildingDocs crates)) as [what|] eqn:Hm;
    [intros [= <- <-]; right; right; exists what; by auto|].
  unfold try_except.
  match goal with
  | |- context [match ?body ?w0 with _ => _ end] =>
      destruct (body w0) as [[built|e] w1]
  end; [intros [= <- <-]; left; by exists built|].
  unfold bind, console_print. simpl.
  destruct (markup_fault env (MFailedToBuild e)) as [what|] eqn:Hm';
    intros [= <- <-]; [right; right; exists what; by eauto|left; by eexists].
Qed.

(** X4: fetch_examples never lets a CalledProcessError out; what escapes
    it is some other exception (a missing executable, a failing copy or
    removal). *)
Theorem fetch_examples_lets_out_no_process_error env version output_dir w e :
  (fetch_examples env version output_dir w).1 = Raise e →
  ∃ what, e = OtherException what.
Proof.
  intros H.
  destruct (fetch_examples_emits env version output_dir w) as (_ & _ & _ & He).
  specialize (He e H). destruct e; [done|by eexists|done].
Qed.

Lemma fetch_examples_lets_out_no_process_error_witness :
  (fetch_examples git_missing "0.13.1" demo_out empty_world).1
    = Raise (OtherException "FileNotFoundError") ∧
  ∃ what, OtherException "FileNotFoundError" = OtherException what.
Proof.
  assert ((fetch_examples git_missing "0.13.1" demo_out empty_world).1
          = Raise (OtherException "FileNotFoundError")) as H
    by (vm_compute; reflexivity).
  split; [exact H|].
  exact (fetch_examples_lets_out_no_process_error git_missing "0.13.1" demo_out
           empty_world _ H).
Defined.

(** ** Nothing outside the footprint *)

Lemma emits_for_each_in {X} P Q (l : list X) (body : X → M unit) :
  (∀ x, x ∈ l → emits P Q (body x)) → emits P Q (for_each l body).
Proof.
  induction l as [|x l IH]; intros Hb; simpl.
  - apply emits_ret.
  - apply emits_bind; [apply Hb, list_elem_of_here|intros _].
    apply IH. intros y Hy. by apply Hb, list_elem_of_further.
Qed.

(** Closes [footprint req e = true] for an event the script emits. *)
Ltac in_footprint :=
  cbv beta iota zeta delta [footprint];
  apply bool_decide_eq_true_2;
  first
    [ solve [repeat constructor]
    | solve [apply list_elem_of_In;
             apply (in_map (crate_conversion (output_dir _)));
             apply list_elem_of_In; assumption] ].

Ltac footprint_auto :=
  emits_auto;
  try lazymatch goal with
      | |- footprint _ _ = true => in_footprint
      | |- main_exit _ => first [exact I | by left | by right]
      end.

Section Footprint.

Variable env : environment.
Variable req : request.

Lemma clone_iced_book_footprint :
  emits (footprint req) main_exit (clone_iced_book env (output_dir req)).
Proof.
  unfold clone_iced_book. apply emits_bind; [footprint_auto|intros _].
  apply emits_try with (Q1 := λ _, True); [footprint_auto|].
  intros [rc|s|c] _; footprint_auto.
Qed.

Lemma build_cargo_docs_footprint :
  emits (footprint req) main_exit
    (build_cargo_docs env (crates req) (version req) (layershell_version req)
       (output_dir req)).
Proof.
  unfold build_cargo_docs. do 2 (apply emits_bind; [footprint_auto|intros _]).
  apply emits_try with (Q1 := λ _, True); [footprint_auto|].
  intros e _; footprint_auto.
Qed.

Lemma convert_cargo_docs_footprint crate :
  crate ∈ crates req →
  emits (footprint req) main_exit
    (convert_cargo_docs env crate (output_dir req)).
Proof.
  intros Hin. unfold convert_cargo_docs.
  apply emits_bind; [footprint_auto|intros found].
  destruct found; simpl; [|footprint_auto].
  apply emits_bind; [footprint_auto|intros _].
  apply emits_try with (Q1 := λ _, True).
  - unfold convert_loop. footprint_auto.
  - intros e _; footprint_auto.
Qed.

Lemma fetch_examples_footprint :
  emits (footprint req) main_exit
    (fetch_examples env (version req) (output_dir req)).
Proof.
  unfold fetch_examples. apply emits_bind; [footprint_auto|intros _].
  apply emits_try with (Q1 := not_exit); [footprint_auto|].
  intros [rc|s|c] He; [footprint_auto|exact I|destruct He].
Qed.

Lemma create_index_footprint :
  emits (footprint req) main_exit
    (create_index env (output_dir req) (crates req) (include_examples req)).
Proof. unfold create_index. footprint_auto. Qed.

Lemma main_footprint : emits (footprint req) main_exit (main env req).
Proof.
  unfold main, convert_each, returning.
  repeat first
    [ apply clone_iced_book_footprint
    | apply build_cargo_docs_footprint
    | apply fetch_examples_footprint
    | apply create_index_footprint
    | apply emits_for_each_in; intros crate Hin;
      unfold convert_or_warn, returning
    | apply convert_cargo_docs_footprint; assumption
    | progress footprint_auto ].
Qed.

End Footprint.

Lemma main_events env req w :
  ∃ evs,
    trace (main env req w).2 = trace w ++ evs ∧
    ∀ e, e ∈ evs → footprint req e = true.
Proof.
  destruct (main_footprint env req w) as (evs & Ht & HP & _).
  exists evs. split; [done|]. intros e He.
  apply list_elem_of_In in He. by eapply forallb_forall in HP.
Qed.

(** X5: whatever the machine answers, the only commands a run of main
    starts are the clone of the book, cargo doc for the requested crates in
    cargo-temp, the clone of iced at the version tag, the clone of its
    default branch and the sparse checkout of examples. *)
Theorem main_runs_only_its_commands env req w :
  ∃ evs,
    trace (main env req w).2 = trace w ++ evs ∧
    ∀ argv cwd r, EvRun argv cwd r ∈ evs → (argv, cwd) ∈ commands req.
Proof.
  destruct (main_events env req w) as (evs & Ht & Hfp).
  exists evs. split; [done|]. intros argv cwd r Hin.
  apply Hfp in Hin. by apply bool_decide_eq_true in Hin.
Qed.

(** X6: a run of main removes nothing but its three scratch directories:
    every rmtree is on book-src, cargo-temp or iced-repo-temp under the
    output root. *)
Theorem main_removes_only_scratch env req w :
  ∃ evs,
    trace (main env req w).2 = trace w ++ evs ∧
    ∀ p fault, EvFs (Rmtree p) fault ∈ evs → p ∈ scratch_dirs (output_dir req).
Proof.
  destruct (main_events env req w) as (evs & Ht & Hfp).
  exists evs. split; [done|]. intros p fault Hin.
  apply Hfp in Hin. by apply bool_decide_eq_true in Hin.
Qed.

(** X7: a run of main creates only the output root, cargo-temp and
    cargo-temp/src, writes only the manifest, the empty lib.rs and the
    README, each with the text computed from the request, and copies only
    the book sources to book/ and the examples to examples/. *)
Theorem main_writes_only_its_files env req w :
  ∃ evs,
    trace (main env req w).2 = trace w ++ evs ∧
    (∀ p fault, EvFs (Mkdir p) fault ∈ evs → p ∈ made_dirs (output_dir req)) ∧
    (∀ p text fault,
       EvFs (WriteText p text) fault ∈ evs → (p, text) ∈ written_files req) ∧
    (∀ src dst fault,
       EvFs (Copytree src dst) fault ∈ evs →
       (src, dst) ∈ copied_trees (output_dir req)).
Proof.
  destruct (main_events env req w) as (evs & Ht & Hfp).
  exists evs. split; [done|]. split_and!.
  - intros p fault Hin. apply Hfp in Hin. by apply bool_decide_eq_true in Hin.
  - intros p text fault Hin. apply Hfp in Hin.
    by apply bool_decide_eq_true in Hin.
  - intros src dst fault Hin. apply Hfp in Hin.
    by apply bool_decide_eq_true in Hin.
Qed.

Lemma split_on_whole (c : ascii) (s : string) :
  has_char c s = false → split_on c s = [s].
Proof.
  induction s as [|a s IH]; simpl; [done|].
  intros [-> Hs]%orb_false_iff. by rewrite IH.
Qed.

(** A name without a slash that is neither empty nor a dot is one more
    component. *)
Lemma path_join_component (p : path) (name : string) :
  has_char slash name = false →
  String.eqb name EmptyString = false → String.eqb name "." = false →
  (p / name)%path = p ++ [name].
Proof.
  intros Hslash Hempty Hdot. unfold path_join, name_root, name_parts.
  rewrite split_on_whole by done. simpl. rewrite Hempty, Hdot. simpl.
  destruct name as [|a name]; [done|]. simpl in *.
  apply orb_false_iff in Hslash as [-> _]. done.
Qed.

Lemma api_dir_component (p : path) (crate : string) :
  has_char slash crate = false →
  (p / (crate +:+ "-api"))%path = p ++ [crate +:+ "-api"].
Proof.
  intros Hslash. apply path_join_component.
  - by rewrite has_char_app, Hslash.
  - by destruct crate.
  - destruct crate as [|a [|b crate]]; [done| |].
    + change (Ascii.eqb a "." && false = false). apply andb_false_r.
    + change (Ascii.eqb a "." && false = false). apply andb_false_r.
Qed.

(** X8: the converter is only ever started for a requested crate, reading
    the directory pathlib makes of cargo-temp/target/doc and the crate's
    name under the output directory and writing to the one it makes of the
    name followed by -api; for a name without a slash the latter is the
    entry <crate>-api of the output directory. *)
Theorem main_converts_only_requested env req w :
  ∃ evs,
    trace (main env req w).2 = trace w ++ evs ∧
    ∀ src dst,
      EvConvertDirectory src dst ∈ evs →
      ∃ crate,
        crate ∈ crates req ∧
        src = (output_dir req / "cargo-temp" / "target" / "doc" / crate)%path ∧
        dst = (output_dir req / (crate +:+ "-api"))%path ∧
        (has_char slash crate = false →
         dst = output_dir req ++ [crate +:+ "-api"]).
Proof.
  destruct (main_events env req w) as (evs & Ht & Hfp).
  exists evs. split; [done|]. intros src dst Hin.
  apply Hfp in Hin. apply bool_decide_eq_true in Hin.
  apply list_elem_of_In, in_map_iff in Hin as (crate & [= <- <-] & Hc).
  exists crate. rewrite list_elem_of_In. split_and!; [done..|].
  apply api_dir_component.
Qed.

Lemma bind_never_returns {A B} (m : M A) (k : A → M B) w :
  (∀ a w1, ∃ e, (k a w1).1 = Raise e) → ∃ e, (bind m k w).1 = Raise e.
Proof.
  intros Hk. unfold bind. destruct (m w) as [[a|e] w1]; [apply Hk|by exists e].
Qed.

Lemma main_never_returns env req w : ∃ e, (main env req w).1 = Raise e.
Proof.
  unfold main. revert w.
  repeat (intros; apply bind_never_returns; intros).
  destruct (_ =? _)%nat;
    repeat (intros; apply bind_never_returns; intros); by eexists.
Qed.

(** X9: main never returns normally and never ends with a
    CalledProcessError: it ends with typer.Exit(0), typer.Exit(1), or an
    exception other than CalledProcessError that a stage let through. *)
Theorem main_ends_with_exit_or_fault env req w :
  ∃ e,
    (main env req w).1 = Raise e ∧
    (e = Exit 0 ∨ e = Exit 1 ∨ ∃ what, e = OtherException what).
Proof.
  destruct (main_never_returns env req w) as [e He]. exists e. split; [done|].
  destruct (main_footprint env req w) as (_ & _ & _ & HQ).
  specialize (HQ e He). destruct e as [rc|what|code]; simpl in HQ.
  - done.
  - right. right. by exists what.
  - destruct HQ as [-> | ->]; [by left|right; by left].
Qed.

(** ** What a True from a stage means *)

Lemma exists_at_rmtree (d : path) (fs : filesystem) :
  exists_at (fs_rmtree d fs) d = false.
Proof.
  unfold exists_at, fs_rmtree. apply not_true_is_false.
  rewrite existsb_exists. intros ([p n] & Hin & Hpre).
  apply list_elem_of_In, elem_of_map_to_list in Hin.
  apply map_lookup_filter_Some in Hin as [_ Hnot].
  apply bool_decide_eq_true in Hpre. by destruct Hnot.
Qed.

(** Goes through a run of a stage, one answer of the machine at a time. *)
Ltac run_cases H :=
  repeat first
    [ discriminate H
    | match type of H with
      | context [run_process ?e ?f ?a ?c] =>
          let r := fresh "r" in let E := fresh "Hrun" in
          destruct (run_process e f a c) as [[r|r] ?] eqn:E
      | context [fs_fault ?e ?f ?o] =>
          let E := fresh "Hfs" in destruct (fs_fault e f o) eqn:E
      | context [markup_fault ?e ?m] =>
          let E := fresh "Hshown" in destruct (markup_fault e m) eqn:E
      | context [exists_fault ?e ?f ?p] =>
          let E := fresh "Hchecked" in destruct (exists_fault e f p) eqn:E
      | context [exists_at ?f ?p] =>
          let E := fresh "Hex" in destruct (exists_at f p) eqn:E
      | context [(?z =? 0)] =>
          let E := fresh "Hrc" in destruct (z =? 0) eqn:E
      end; simpl in H ].

(** X10: when clone_iced_book returns True, git came back with status 0,
    the book sources were copied to book/ and book-src is gone. *)
Theorem clone_iced_book_true env output_dir w w' :
  clone_iced_book env output_dir w = (Ret true, w') →
  let book_dir := (output_dir / "book-src")%path in
  exists_at (fs w') book_dir = false ∧
  ∃ evs,
    trace w' = trace w ++ evs ∧
    EvRun (book_clone_argv book_dir) None (Returned 0) ∈ evs ∧
    EvFs (Copytree (book_dir / "src")%path (output_dir / "book")%path) None ∈ evs.
Proof.
  intros H book_dir.
  unfold clone_iced_book, subprocess_run, try_except, bind,
    subprocess_run_captured, copytree, rmtree, fs_call, path_exists,
    console_print, log, ret in H.
  fold book_dir in H. simpl in H. run_cases H.
  all: injection H as <-; simpl; (split; [apply exists_at_rmtree|]).
  all: apply Z.eqb_eq in Hrc as ->.
  all: eexists; rewrite <-!(assoc_L (++)); (split; [reflexivity|]).
  all: split; repeat constructor.
Qed.

Lemma clone_iced_book_true_witness :
  let r := clone_iced_book healthy demo_out empty_world in
  let book_dir := (demo_out / "book-src")%path in
  r = (Ret true, r.2) ∧
  exists_at (fs r.2) book_dir = false ∧
  ∃ evs,
    trace r.2 = trace empty_world ++ evs ∧
    EvRun (book_clone_argv book_dir) None (Returned 0) ∈ evs ∧
    EvFs (Copytree (book_dir / "src")%path (demo_out / "book")%path) None ∈ evs.
Proof.
  intros r book_dir.
  assert (r.1 = Ret true) as H0 by (vm_compute; reflexivity).
  assert (r = (Ret true, r.2)) as H1 by (rewrite <-H0; apply surjective_pairing).
  split; [exact H1|].
  exact (clone_iced_book_true healthy demo_out empty_world r.2 H1).
Defined.

(** X11: when build_cargo_docs returns True, cargo doc came back with
    status 0 and cargo-temp/target/doc exists in the world it leaves. *)
Theorem build_cargo_docs_true env crates version layershell_version output_dir
    w w' :
  build_cargo_docs env crates version layershell_version output_dir w
    = (Ret true, w') →
  let temp_dir := (output_dir / "cargo-temp")%path in
  exists_at (fs w') (temp_dir / "target" / "doc")%path = true ∧
  ∃ evs,
    trace w' = trace w ++ evs ∧
    EvRun (cargo_doc_argv crates) (Some temp_dir) (Returned 0) ∈ evs.
Proof.
  intros H temp_dir.
  unfold build_cargo_docs, try_except, bind, subprocess_run_captured, mkdir,
    write_text, fs_call, path_exists, console_print, log, ret in H.
  fold temp_dir in H. simpl in H. run_cases H.
  all: injection H as <-; simpl; (split; [done|]).
  all: apply Z.eqb_eq in Hrc as ->.
  all: eexists; rewrite <-!(assoc_L (++)); (split; [reflexivity|]).
  all: repeat constructor.
Qed.

Lemma build_cargo_docs_true_witness :
  let r := build_cargo_docs healthy (crates demo_request) "0.13.1" "0.13.7"
             demo_out empty_world in
  let temp_dir := (demo_out / "cargo-temp")%path in
  r = (Ret true, r.2) ∧
  exists_at (fs r.2) (temp_dir / "target" / "doc")%path = true ∧
  ∃ evs,
    trace r.2 = trace empty_world ++ evs ∧
    EvRun (cargo_doc_argv (crates demo_request)) (Some temp_dir) (Returned 0)
      ∈ evs.
Proof.
  intros r temp_dir.
  assert (r.1 = Ret true) as H0 by (vm_compute; reflexivity).
  assert (r = (Ret true, r.2)) as H1 by (rewrite <-H0; apply surjective_pairing).
  split; [exact H1|].
  exact (build_cargo_docs_true healthy (crates demo_request) "0.13.1" "0.13.7"
           demo_out empty_world r.2 H1).
Defined.

(** X12: when fetch_examples returns True, the sparse checkout came back
    with status 0, the examples were copied to examples/ and
    iced-repo-temp is gone. *)
Theorem fetch_examples_true env version output_dir w w' :
  fetch_examples env version output_dir w = (Ret true, w') →
  let repo_dir := (output_dir / "iced-repo-temp")%path in
  exists_at (fs w') repo_dir = false ∧
  ∃ evs,
    trace w' = trace w ++ evs ∧
    EvRun (sparse_checkout_argv repo_dir) None (Returned 0) ∈ evs ∧
    EvFs (Copytree (repo_dir / "examples")%path (output_dir / "examples")%path)
         None ∈ evs.
Proof.
  intros H repo_dir.
  unfold fetch_examples, subprocess_run, try_except, bind,
    subprocess_run_captured, copytree, rmtree, fs_call, path_exists,
    console_print, log, ret in H.
  fold repo_dir in H. simpl in H. run_cases H.
  all: injection H as <-; simpl; (split; [apply exists_at_rmtree|]).
  all: repeat match goal with
              | H : (_ =? 0) = true |- _ => apply Z.eqb_eq in H as ->
              end.
  all: eexists; rewrite <-!(assoc_L (++)); (split; [reflexivity|]).
  all: split; repeat constructor.
Qed.

Lemma fetch_examples_true_witness :
  let r := fetch_examples tag_missing "0.13.1" demo_out empty_world in
  let repo_dir := (demo_out / "iced-repo-temp")%path in
  r = (Ret true, r.2) ∧
  exists_at (fs r.2) repo_dir = false ∧
  ∃ evs,
    trace r.2 = trace empty_world ++ evs ∧
    EvRun (sparse_checkout_argv repo_dir) None (Returned 0) ∈ evs ∧
    EvFs (Copytree (repo_dir / "examples")%path (demo_out / "examples")%path)
         None ∈ evs.
Proof.
  intros r repo_dir.
  assert (r.1 = Ret true) as H0 by (vm_compute; reflexivity).
  assert (r = (Ret true, r.2)) as H1 by (rewrite <-H0; apply surjective_pairing).
  split; [exact H1|].
  exact (fetch_examples_true tag_missing "0.13.1" demo_out empty_world r.2 H1).
Defined.

(** X13: when the clone of the version tag comes back with status 0,
    fetch_examples clones nothing else: the default branch is only tried
    after a failed tag clone. *)
Theorem no_fallback_when_tag_clones env version output_dir w fs1 :
  let repo_dir := (output_dir / "iced-repo-temp")%path in
  let primary := clone_tag_argv (version_tag version) repo_dir in
  run_process env (fs w) primary None = (Returned 0, fs1) →
  ∃ evs,
    trace (fetch_examples env version output_dir w).2 = trace w ++ evs ∧
    clone_attempts evs = [primary].
Proof.
  intros repo_dir primary Hrun.
  unfold fetch_examples. fold repo_dir. fold primary.
  unfold bind at 1. simpl.
  rewrite try_bind_at.
  unfold subprocess_run at 1, bind at 1, subprocess_run_captured at 1.
  simpl. rewrite Hrun. simpl.
  rewrite try_bind_at. unfold ret at 1. simpl.
  match goal with
  | |- context [trace (?m ?w0).2] =>
      assert (emits no_clone (λ _, True) m) as Hm;
      [|destruct (Hm w0) as (evs & -> & Hevs & _)]
  end.
  { apply emits_try with (Q1 := λ _, True); [emits_auto|].
    intros [] _; emits_auto. }
  eexists. simpl. rewrite <-!(assoc_L (++)). split; [reflexivity|].
  by rewrite !clone_attempts_app, (no_clone_attempts _ Hevs).
Qed.

Lemma no_fallback_when_tag_clones_witness :
  let repo_dir := (demo_out / "iced-repo-temp")%path in
  let primary := clone_tag_argv (version_tag "0.13.1") repo_dir in
  let fs1 : filesystem :=
    {[ demo_out ++ ["iced-repo-temp"; "README.md"] := File "iced" ]} in
  run_process healthy (fs empty_world) primary None = (Returned 0, fs1) ∧
  ∃ evs,
    trace (fetch_examples healthy "0.13.1" demo_out empty_world).2
      = trace empty_world ++ evs ∧
    clone_attempts evs = [primary].
Proof.
  intros repo_dir primary fs1.
  assert (run_process healthy (fs empty_world) primary None = (Returned 0, fs1))
    as H1 by reflexivity.
  split; [exact H1|].
  exact (no_fallback_when_tag_clones healthy "0.13.1" demo_out empty_world fs1 H1).
Defined.

(** ** The version tag *)

Lemma prefix_v_cons (s : string) : String.prefix "v" ("v" +:+ s) = true.
Proof. by destruct s. Qed.

(** X14: the tag asked of git always starts with v, a version that
    already does is taken as it is (so building the tag twice changes
    nothing), and the empty version gives the tag v. *)
Theorem version_tag_starts_with_v version :
  String.prefix "v" (version_tag version) = true ∧
  version_tag (version_tag version) = version_tag version ∧
  (String.prefix "v" version = true → version_tag version = version) ∧
  (String.prefix "v" version = false → version_tag version = "v" +:+ version) ∧
  version_tag EmptyString = "v".
Proof.
  unfold version_tag.
  destruct (String.prefix "v" version) eqn:E; cbv [negb].
  - rewrite E. by split_and!.
  - rewrite prefix_v_cons. by split_and!.
Qed.

(** ** The result of a conversion *)

(** X15: with the check of the documentation directory answering and the
    console showing the lines of the call, convert_cargo_docs returns True
    exactly when the directory exists, the converter got through its items
    without raising itself, and at least one item succeeded.  So a missing
    directory, an empty run of the converter and a converter that raises
    after some successes all give False. *)
Theorem convert_cargo_docs_result env crate output_dir w :
  let doc_dir := (output_dir / "cargo-temp" / "target" / "doc" / crate)%path in
  let markdown_dir := (output_dir / (crate +:+ "-api"))%path in
  let c := convert_dir env (fs w) doc_dir markdown_dir in
  let successes := length (List.filter is_written (yielded c)) in
  exists_fault env (fs w) doc_dir = None →
  forallb (renders env)
    (if exists_at (fs w) doc_dir then conversion_lines crate markdown_dir c
     else [MNoDocsFound crate]) = true →
  (convert_cargo_docs env crate output_dir w).1 =
    Ret (exists_at (fs w) doc_dir
         && match gen_fault c with None => true | Some _ => false end
         && (0 <? successes)%nat).
Proof.
  intros doc_dir markdown_dir c successes Hex Hshown.
  destruct (exists_at (fs w) doc_dir) eqn:Hdir.
  - rewrite (convert_cargo_docs_run env crate output_dir w Hex Hdir Hshown).
    fold doc_dir markdown_dir c successes. simpl.
    destruct (gen_fault c); [done|]. by destruct successes.
  - simpl in Hshown. rewrite andb_true_r in Hshown.
    unfold convert_cargo_docs. fold doc_dir.
    unfold bind at 1, path_exists at 1. rewrite Hex, Hdir. simpl.
    unfold bind. by rewrite (renders_print _ _ _ Hshown).
Qed.

Lemma convert_cargo_docs_result_witness :
  let doc_dir := (demo_out / "cargo-temp" / "target" / "doc" / "iced")%path in
  let markdown_dir := (demo_out / "iced-api")%path in
  let c := convert_dir mixed_pages (fs built_world) doc_dir markdown_dir in
  let successes := length (List.filter is_written (yielded c)) in
  exists_fault mixed_pages (fs built_world) doc_dir = None ∧
  forallb (renders mixed_pages)
    (if exists_at (fs built_world) doc_dir
     then conversion_lines "iced" markdown_dir c
     else [MNoDocsFound "iced"]) = true ∧
  (convert_cargo_docs mixed_pages "iced" demo_out built_world).1 =
    Ret (exists_at (fs built_world) doc_dir
         && match gen_fault c with None => true | Some _ => false end
         && (0 <? successes)%nat).
Proof.
  intros doc_dir markdown_dir c successes.
  assert (exists_fault mixed_pages (fs built_world) doc_dir = None) as H1
    by reflexivity.
  assert (forallb (renders mixed_pages)
            (if exists_at (fs built_world) doc_dir
             then conversion_lines "iced" markdown_dir c
             else [MNoDocsFound "iced"]) = true) as H2
    by (vm_compute; reflexivity).
  split; [exact H1|]. split; [exact H2|].
  exact (convert_cargo_docs_result mixed_pages "iced" demo_out built_world H1 H2).
Defined.

(** The loop either shows every warning or ends with the exception of the
    console. *)
Lemma classify_cases env items success_count error_count w :
  forallb (renders env) (omap file_warning_line items) = true ∨
  ∃ what w1,
    classify env items success_count error_count w
      = (Raise (OtherException what), w1).
Proof.
  revert success_count error_count w.
  induction items as [|[f [out|err]] items IH]; intros s e w; simpl.
  - by left.
  - apply IH.
  - unfold bind, console_print, renders. simpl.
    destruct (markup_fault env (MFileFailed f err)) as [what|];
      [right; by eauto|].
    apply IH.
Qed.

Lemma convert_loop_cases env doc_dir markdown_dir w :
  let c := convert_dir env (fs w) doc_dir markdown_dir in
  forallb (renders env) (omap file_warning_line (yielded c)) = true ∨
  ∃ what w1,
    convert_loop env doc_dir markdown_dir w = (Raise (OtherException what), w1).
Proof.
  intros c. unfold convert_loop, bind at 1, convert_directory at 1. fold c.
  unfold bind at 1.
  match goal with
  | |- context [classify env ?items ?s ?e ?w0] =>
      destruct (classify_cases env items s e w0) as [H|(what & w1 & ->)]
  end; [by left|right; by eauto].
Qed.

(** Closes a run that ends with the report of a failure and is assumed to
    have returned True. *)
Ltac report_not_true H :=
  unfold bind, console_print in H; simpl in H;
  repeat match type of H with
         | context [markup_fault ?e ?m] => destruct (markup_fault e m); simpl in H
         end;
  discriminate H.

(** X16: when convert_cargo_docs returns True, the converter got through
    its items, at least one of them succeeded, and the console shows one
    warning per failed item in the order the converter yielded them, then
    the number of converted pages, which is the number of items that
    succeeded, and the number of failed files only if there is one. *)
Theorem convert_cargo_docs_reports_counts env crate output_dir w w' :
  let doc_dir := (output_dir / "cargo-temp" / "target" / "doc" / crate)%path in
  let markdown_dir := (output_dir / (crate +:+ "-api"))%path in
  let c := convert_dir env (fs w) doc_dir markdown_dir in
  let successes := length (List.filter is_written (yielded c)) in
  let failures :=
    length (List.filter (λ item, negb (is_written item)) (yielded c)) in
  convert_cargo_docs env crate output_dir w = (Ret true, w') →
  gen_fault c = None ∧
  (1 ≤ successes)%nat ∧
  w' = World (conv_fs c)
         (trace w
          ++ [EvPrint (MConverting crate); EvConvertDirectory doc_dir markdown_dir]
          ++ omap file_warning (yielded c)
          ++ [EvPrint (MConverted successes crate markdown_dir)]
          ++ (if (0 <? failures)%nat
              then [EvPrint (MFilesFailed failures)] else [])).
Proof.
  intros doc_dir markdown_dir c successes failures H.
  unfold convert_cargo_docs in H. fold doc_dir markdown_dir in H.
  unfold bind at 1, path_exists at 1 in H.
  destruct (exists_fault env (fs w) doc_dir) as [what|]; [done|].
  destruct (exists_at (fs w) doc_dir); simpl in H;
    [|report_not_true H].
  unfold bind at 1, console_print at 1 in H. simpl in H.
  destruct (markup_fault env (MConverting crate)) as [what|]; [done|].
  unfold try_except in H. unfold bind at 1 in H.
  destruct (convert_loop_cases env doc_dir markdown_dir
              (World (fs w) (trace w ++ [EvPrint (MConverting crate)])))
    as [Hwarn|(what & w1 & Hloop)];
    [|rewrite Hloop in H; report_not_true H].
  pose proof (convert_loop_spec env doc_dir markdown_dir
                (World (fs w) (trace w ++ [EvPrint (MConverting crate)]))
                Hwarn) as Hloop.
  simpl in Hloop. rewrite Hloop in H. clear Hloop Hwarn. fold c in H.
  destruct (gen_fault c) as [e|]; [report_not_true H|].
  fold successes failures in H. split; [done|].
  destruct successes as [|n]; simpl in H.
  { report_not_true H. }
  split; [lia|].
  unfold bind at 1, console_print at 1 in H. simpl in H.
  destruct (markup_fault env (MConverted (S n) crate markdown_dir));
    [report_not_true H|].
  destruct (0 <? failures)%nat; cbv [bind console_print interpolated ret] in H;
    simpl in H; injection H as <-; by rewrite <-!(assoc_L (++)).
Qed.

Lemma convert_cargo_docs_reports_counts_witness :
  let doc_dir := (demo_out / "cargo-temp" / "target" / "doc" / "iced")%path in
  let markdown_dir := (demo_out / "iced-api")%path in
  let c := convert_dir mixed_pages (fs built_world) doc_dir markdown_dir in
  let successes := length (List.filter is_written (yielded c)) in
  let failures :=
    length (List.filter (λ item, negb (is_written item)) (yielded c)) in
  let r := convert_cargo_docs mixed_pages "iced" demo_out built_world in
  r = (Ret true, r.2) ∧
  gen_fault c = None ∧
  (1 ≤ successes)%nat ∧
  r.2 = World (conv_fs c)
          (trace built_world
           ++ [EvPrint (MConverting "iced"); EvConvertDirectory doc_dir markdown_dir]
           ++ omap file_warning (yielded c)
           ++ [EvPrint (MConverted successes "iced" markdown_dir)]
           ++ (if (0 <? failures)%nat
               then [EvPrint (MFilesFailed failures)] else [])).
Proof.
  intros doc_dir markdown_dir c successes failures r.
  assert (r.1 = Ret true) as H0 by (vm_compute; reflexivity).
  assert (r = (Ret true, r.2)) as H1 by (rewrite <-H0; apply surjective_pairing).
  split; [exact H1|].
  exact (convert_cargo_docs_reports_counts mixed_pages "iced" demo_out
           built_world r.2 H1).
Defined.

(** ** The summary *)

Lemma main_exit_summary env req w c w' :
  main env req w = (Raise (Exit c), w') →
  let readme := (output_dir req / "README.md")%path in
  let text := index_content (crates req) (include_examples req) in
  let total := (2 + (if include_examples req then 1 else 0))%nat in
  ∃ (book built fetched : bool)
    (t_pre t_book t_build t_conv t_clean t_ex : list event),
    let succeeded :=
      ((if book then 1 else 0) + (if built then 1 else 0)
       + (if include_examples req && fetched then 1 else 0))%nat in
    trace w' =
      trace w ++ t_pre ++ t_book ++ [EvReturned CloneBook book]
      ++ t_build ++ [EvReturned BuildDocs built] ++ t_conv ++ t_clean ++ t_ex
      ++ [EvFs (WriteText readme text) None; EvPrint (MIndexCreated readme)]
      ++ summary_lines req succeeded total ∧
    forallb io_event t_pre = true ∧
    forallb io_event t_book = true ∧
    forallb io_event t_build = true ∧
    (if built
     then forallb conversion_event t_conv = true ∧
          map fst (stage_returns t_conv) = map ConvertDocs (crates req) ∧
          forallb io_event t_clean = true
     else t_conv = [] ∧ t_clean = []) ∧
    (if include_examples req
     then ∃ t, forallb io_event t = true ∧
               t_ex = t ++ [EvReturned FetchExamples fetched]
     else t_ex = [] ∧ fetched = true) ∧
    c = (if (succeeded =? total)%nat then 0 else 1).
Proof.
  intros H readme text total. unfold main in H.
  apply (bind_exit io_event is_other) in H
    as (_ & w1 & t1 & _ & Ht1 & HP1 & H);
    [|emits_auto|apply is_other_not_exit].
  apply (bind_exit io_event is_other) in H
    as (_ & w2 & t2 & _ & Ht2 & HP2 & H);
    [|emits_auto|apply is_other_not_exit].
  apply (bind_exit io_event is_other) in H
    as (_ & w3 & t3 & _ & Ht3 & HP3 & H);
    [|emits_auto|apply is_other_not_exit].
  eapply returning_exit in H as (book & w4 & t_book & _ & Ht4 & HP4 & H);
    [|apply clone_iced_book_emits|apply is_other_not_exit].
  eapply returning_exit in H as (built & w5 & t_build & _ & Ht5 & HP5 & H);
    [|apply build_cargo_docs_emits|apply is_other_not_exit].
  simpl in Ht5.
  set (sc1 := if book then 1%nat else 0%nat) in H.
  match type of H with bind _ ?k _ = _ => set (rest := k) in H end.
  assert (∃ w6 t_conv t_clean,
    trace w6 = (trace w5 ++ [EvReturned BuildDocs built]) ++ t_conv ++ t_clean ∧
    (if built
     then forallb conversion_event t_conv = true ∧
          map fst (stage_returns t_conv) = map ConvertDocs (crates req) ∧
          forallb io_event t_clean = true
     else t_conv = [] ∧ t_clean = []) ∧
    rest (if built then S sc1 else sc1) w6 = (Raise (Exit c), w'))
    as (w6 & t_conv & t_clean & Ht6 & Hdocs & H').
  { destruct built.
    - rewrite bind_assoc_at in H.
      apply (bind_exit conversion_event is_other) in H
        as ([] & wc & t_conv & Hc & Htc & HPc & H);
        [|apply convert_each_emits|apply is_other_not_exit].
      apply convert_each_inv in Hc as (t_conv' & Htc' & _ & Hrc).
      rewrite Htc in Htc'. apply app_inv_head in Htc' as <-.
      cbv beta zeta in H. rewrite bind_assoc_at in H.
      apply (bind_exit io_event is_other) in H
        as (found & w6a & t_found & _ & Ht6a & HP6a & H);
        [|emits_auto|apply is_other_not_exit].
      rewrite bind_assoc_at in H.
      apply (bind_exit io_event is_other) in H
        as (_ & w6 & t_clean & _ & Ht6 & HP6 & H);
        [|emits_auto|apply is_other_not_exit].
      exists w6, t_conv, (t_found ++ t_clean).
      split; [|split; [by rewrite forallb_app, HP6a, HP6|exact H]].
      rewrite Ht6, Ht6a, Htc. simpl. by rewrite <-!(assoc_L (++)).
    - eexists _, [], []. split; [|split; [done|exact H]].
      simpl. by rewrite app_nil_r. }
  clear H. subst rest. cbv beta in H'.
  set (sc2 := if built then S sc1 else sc1) in H'.
  match type of H' with bind _ ?k _ = _ => set (rest := k) in H' end.
  assert (∃ w7 t_ex fetched,
    trace w7 = trace w6 ++ t_ex ∧
    (if include_examples req
     then ∃ t, forallb io_event t = true ∧
               t_ex = t ++ [EvReturned FetchExamples fetched]
     else t_ex = [] ∧ fetched = true) ∧
    rest (if include_examples req && fetched then S sc2 else sc2) w7
      = (Raise (Exit c), w'))
    as (w7 & t_ex & fetched & Ht7 & Hex & H).
  { destruct (include_examples req).
    - rewrite bind_assoc_at in H'.
      eapply returning_exit in H' as (fetched & w7 & t & _ & Ht7 & HP7 & H);
        [|apply fetch_examples_emits|apply is_other_not_exit].
      exists (World (fs w7) (trace w7 ++ [EvReturned FetchExamples fetched])),
        (t ++ [EvReturned FetchExamples fetched]), fetched.
      split; [|split; [by exists t|]].
      + simpl. by rewrite Ht7, (assoc_L (++)).
      + simpl. destruct fetched; exact H.
    - exists w6, [], true. split; [by rewrite app_nil_r|]. by split. }
  clear H'. subst rest. cbv beta in H.
  set (sc3 := if include_examples req && fetched then S sc2 else sc2) in H.
  apply (bind_exit io_event is_other) in H
    as ([] & w8 & t8 & Hidx & _ & _ & H);
    [|apply create_index_emits|apply is_other_not_exit].
  apply create_index_inv in Hidx as [Hfs8 Ht8]. fold readme text in Hfs8, Ht8.
  assert (w' = World (fs w8) (trace w8 ++ summary_lines req sc3 total) ∧
          c = if (sc3 =? total)%nat then 0 else 1) as [-> ->].
  { unfold summary_lines. subst total. destruct (sc3 =? _)%nat;
      repeat (cbv beta in H; apply print_exit in H);
      cbv beta in H; unfold raise in H;
      injection H as <- <-; (split; [|done]); simpl;
      f_equal; by rewrite <-!(assoc_L (++)). }
  clear H. simpl.
  exists book, built, fetched, (t1 ++ t2 ++ t3), t_book, t_build, t_conv, t_clean,
    t_ex.
  assert (sc3 = ((if book then 1 else 0) + (if built then 1 else 0)
                 + (if include_examples req && fetched then 1 else 0))%nat)
    as <-.
  { subst sc3 sc2 sc1. by destruct book, built, (include_examples req), fetched. }
  split.
  { rewrite Ht8, Ht7, Ht6, Ht5, Ht4, Ht3, Ht2, Ht1. simpl.
    by rewrite <-!(assoc_L (++)). }
  rewrite !forallb_app, HP1, HP2, HP3.
  by repeat (split; [done|]).
Qed.

(** X17: the run closes with the summary: the line Completed s/t, where
    t is the number of tasks that count (two, or three with examples) and s
    the number of them that returned True, then the success banner when
    s = t and the number t - s of failed tasks otherwise; the exit code is
    0 in the first case and 1 in the second. *)
Theorem summary_reports_the_count env req w c w' evs :
  main env req w = (Raise (Exit c), w') →
  trace w' = trace w ++ evs →
  let total := length (counted_outcomes evs) in
  let succeeded := length (List.filter snd (counted_outcomes evs)) in
  (∃ before, evs = before ++ summary_lines req succeeded total) ∧
  c = (if (succeeded =? total)%nat then 0 else 1).
Proof.
  intros H Hevs.
  apply main_exit_summary in H
    as (book & built & fetched & t_pre & t_book & t_build & t_conv & t_clean
        & t_ex & Ht & Hpre & Hbook & Hbuild & Hdocs & Hex & ->).
  rewrite Ht in Hevs. apply (inj (app (trace w))) in Hevs as <-.
  assert (counted_outcomes
            (t_pre ++ t_book ++ [EvReturned CloneBook book] ++ t_build
             ++ [EvReturned BuildDocs built] ++ t_conv ++ t_clean ++ t_ex
             ++ [EvFs (WriteText (output_dir req / "README.md")%path
                         (index_content (crates req) (include_examples req)))
                   None;
                 EvPrint (MIndexCreated (output_dir req / "README.md")%path)]
             ++ summary_lines req
                  ((if book then 1 else 0) + (if built then 1 else 0)
                   + (if include_examples req && fetched then 1 else 0))
                  (2 + (if include_examples req then 1 else 0)))
          = [(CloneBook, book); (BuildDocs, built)]
            ++ (if include_examples req then [(FetchExamples, fetched)] else []))
    as ->.
  { unfold counted_outcomes. rewrite !stage_returns_app.
    rewrite (io_event_no_return _ Hpre), (io_event_no_return _ Hbook),
      (io_event_no_return _ Hbuild).
    assert (stage_returns (summary_lines req
              ((if book then 1 else 0) + (if built then 1 else 0)
               + (if include_examples req && fetched then 1 else 0))
              (2 + (if include_examples req then 1 else 0))) = []) as ->.
    { unfold summary_lines. by destruct (_ =? _)%nat. }
    assert (List.filter (λ sb, counted sb.1) (stage_returns t_conv) = [] ∧
            stage_returns t_clean = []) as [Hconv ->].
    { destruct built.
      - destruct Hdocs as (_ & Hc & Hclean). split.
        + by eapply conversions_not_counted.
        + by apply io_event_no_return.
      - by destruct Hdocs as [-> ->]. }
    simpl. rewrite !List.filter_app, Hconv. simpl.
    destruct (include_examples req).
    - destruct Hex as (t & Hio & ->).
      by rewrite stage_returns_app, (io_event_no_return _ Hio).
    - by destruct Hex as [-> _]. }
  intros total succeeded.
  assert (total = (2 + (if include_examples req then 1 else 0))%nat) as Ht'
    by (subst total; by destruct (include_examples req)).
  assert (succeeded = ((if book then 1 else 0) + (if built then 1 else 0)
                       + (if include_examples req && fetched then 1 else 0))%nat)
    as Hs'
    by (subst succeeded; by destruct book, built, (include_examples req), fetched).
  rewrite Ht', Hs'. split; [|done].
  eexists. rewrite !(assoc_L (++)). reflexivity.
Qed.

Lemma summary_reports_the_count_witness :
  let r := main cargo_fails demo_request empty_world in
  let total := length (counted_outcomes (trace r.2)) in
  let succeeded := length (List.filter snd (counted_outcomes (trace r.2))) in
  r = (Raise (Exit 1), r.2) ∧
  trace r.2 = trace empty_world ++ trace r.2 ∧
  (∃ before, trace r.2 = before ++ summary_lines demo_request succeeded total) ∧
  1 = (if (succeeded =? total)%nat then 0 else 1).
Proof.
  intros r total succeeded.
  assert (r.1 = Raise (Exit 1)) as H0 by (vm_compute; reflexivity).
  assert (r = (Raise (Exit 1), r.2)) as H1
    by (rewrite <-H0; apply surjective_pairing).
  assert (trace r.2 = trace empty_world ++ trace r.2) as H2 by reflexivity.
  split; [exact H1|]. split; [exact H2|].
  exact (summary_reports_the_count cargo_fails demo_request empty_world 1 r.2
           (trace r.2) H1 H2).
Defined.

(** ** Clean-up in fetch_examples *)

(** X18: whenever fetch_examples returns, True or False, on a machine where
    removing iced-repo-temp does not fail, iced-repo-temp does not exist in
    the world it leaves: the function removes it after the copy, when no
    examples are found and after a failed git command. *)
Theorem fetch_examples_leaves_no_repo env version output_dir w fetched w' :
  let repo_dir := (output_dir / "iced-repo-temp")%path in
  (∀ fs0, fs_fault env fs0 (Rmtree repo_dir) = None) →
  fetch_examples env version output_dir w = (Ret fetched, w') →
  exists_at (fs w') repo_dir = false.
Proof.
  intros repo_dir Hrm H.
  unfold fetch_examples, subprocess_run, try_except, bind,
    subprocess_run_captured, copytree, rmtree, fs_call, path_exists,
    console_print, log, ret in H.
  fold repo_dir in H. simpl in H.
  repeat first
    [ discriminate H
    | rewrite Hrm in H; simpl in H
    | match type of H with
      | context [run_process ?e ?f ?a ?c] =>
          destruct (run_process e f a c) as [[?|?] ?] eqn:?
      | context [fs_fault ?e ?f (Copytree ?a ?b)] =>
          destruct (fs_fault e f (Copytree a b)) eqn:?
      | context [markup_fault ?e ?m] => destruct (markup_fault e m) eqn:?
      | context [exists_fault ?e ?f ?p] =>
          destruct (exists_fault e f p) eqn:?
      | context [exists_at ?f ?p] => destruct (exists_at f p) eqn:?
      | context [(?z =? 0)] => destruct (z =? 0) eqn:?
      end; simpl in H ].
  all: injection H as <- <-; simpl;
    first [apply exists_at_rmtree | assumption].
Qed.

(** The clone of the tag leaves iced-repo-temp, the sparse checkout fails,
    and the handler removes the directory. *)
Lemma fetch_examples_leaves_no_repo_witness :
  let repo_dir := (demo_out / "iced-repo-temp")%path in
  let r := fetch_examples checkout_fails "0.13.1" demo_out empty_world in
  (∀ fs0, fs_fault checkout_fails fs0 (Rmtree repo_dir) = None) ∧
  r = (Ret false, r.2) ∧
  last (trace r.2) = Some (EvFs (Rmtree repo_dir) None) ∧
  exists_at (fs r.2) repo_dir = false.
Proof.
  intros repo_dir r.
  assert (∀ fs0, fs_fault checkout_fails fs0 (Rmtree repo_dir) = None) as H1
    by reflexivity.
  assert (r.1 = Ret false) as H0 by (vm_compute; reflexivity).
  assert (r = (Ret false, r.2)) as H2
    by (rewrite <-H0; apply surjective_pairing).
  assert (last (trace r.2) = Some (EvFs (Rmtree repo_dir) None)) as H3
    by (vm_compute; reflexivity).
  split; [exact H1|]. split; [exact H2|]. split; [exact H3|].
  exact (fetch_examples_leaves_no_repo checkout_fails "0.13.1" demo_out
           empty_world false r.2 H1 H2).
Defined.
